(** * Thinkerbell semantic backend: the classification pipeline of
    [backend_server.py] ([SemanticBrain]) embedded in Rocq.

    Conventions of the embedding.
    - A Python [str] is a [string]; a character is a code point in 0..255,
      with Python's [str.isspace] and [str.lower] on that range.
    - A Python [float] is idealised as an exact rational ([Q]); [round(x, n)]
      rounds half to even on the exact value.
    - A Python [dict] is an insertion-ordered association list with unique
      keys ([Dict]); iteration follows insertion order, as in Python 3.7+.
    - A call that may raise returns an [outcome]; [except Exception] is a
      match on it.
    - [sentence_transformers] and [sklearn] are external: the model's
      [encode] and [cosine_similarity] are parameters of the similarity path. *)

From Stdlib Require Import List Bool Arith ZArith QArith Qround Qabs Lia Lqa.
From Stdlib Require Import Ascii String DecimalString Sorted Permutation.
Import ListNotations.

Set Implicit Arguments.

Local Close Scope Q_scope.
Local Open Scope string_scope.
Local Open Scope nat_scope.
Local Open Scope list_scope.

(** ** Python strings *)

Module PyStr.

(** [str.isspace] for one character of code point below 256:
    TAB..CR, FS..US, SPACE, NEL and NBSP. *)
Definition isspace (c : ascii) : bool :=
  let n := nat_of_ascii c in
  ((9 <=? n) && (n <=? 13)) || ((28 <=? n) && (n <=? 32))
  || (n =? 133) || (n =? 160).

(** [str.lower] on one character: A-Z and the Latin-1 capitals
    (U+00C0..U+00DE except the multiplication sign U+00D7). *)
Definition lower_char (c : ascii) : ascii :=
  let n := nat_of_ascii c in
  if ((65 <=? n) && (n <=? 90))
     || ((192 <=? n) && (n <=? 222) && negb (n =? 215))
  then ascii_of_nat (n + 32) else c.

Definition chars (s : string) : list ascii := list_ascii_of_string s.
Definition str (l : list ascii) : string := string_of_list_ascii l.

(** [s.lower()] *)
Definition lower (s : string) : string := str (map lower_char (chars s)).

(** [len(s)] *)
Definition len (s : string) : nat := String.length s.

Fixpoint lstrip_chars (l : list ascii) : list ascii :=
  match l with
  | c :: l' => if isspace c then lstrip_chars l' else l
  | [] => []
  end.

Definition strip_chars (l : list ascii) : list ascii :=
  rev (lstrip_chars (rev (lstrip_chars l))).

(** [s.strip()] *)
Definition strip (s : string) : string := str (strip_chars (chars s)).

Fixpoint starts_with (p l : list ascii) : bool :=
  match p, l with
  | [], _ => true
  | a :: p', b :: l' => Ascii.eqb a b && starts_with p' l'
  | _ :: _, [] => false
  end.

Fixpoint contains_chars (p l : list ascii) : bool :=
  starts_with p l ||
  match l with
  | [] => false
  | _ :: l' => contains_chars p l'
  end.

(** [word in s] on strings: substring containment. *)
Definition contains (word s : string) : bool :=
  contains_chars (chars word) (chars s).

End PyStr.

(** ** [re.split(r'[.!?]+\s+', text)] *)

Module Regex.

(** The class [[.!?]]. *)
Definition is_end_mark (c : ascii) : bool :=
  let n := nat_of_ascii c in (n =? 46) || (n =? 33) || (n =? 63).

(** [\s] on a [str] pattern is [str.isspace]. *)
Definition is_ws : ascii -> bool := PyStr.isspace.

(** Scanner state.  The two classes are disjoint and both quantifiers are
    greedy, so the leftmost match of [[.!?]+\s+] starts at the first mark of
    a run of marks that is followed by white space, and swallows the whole
    run and all the white space after it.
    - [InText acc]: outside any candidate match; [acc] is the current piece,
      reversed.
    - [InMarks acc marks]: inside a run of marks that may start a match;
      [marks] is the run, reversed.
    - [InSpaces]: inside the [\s+] part of a match; the piece before it has
      been emitted. *)
Inductive scan : Type :=
| InText (acc : list ascii)
| InMarks (acc marks : list ascii)
| InSpaces.

Fixpoint split_from (st : scan) (l : list ascii) : list (list ascii) :=
  match l with
  | [] =>
      match st with
      | InText acc => [rev acc]
      | InMarks acc marks => [rev (marks ++ acc)]
      | InSpaces => [[]]
      end
  | c :: l' =>
      match st with
      | InText acc =>
          if is_end_mark c then split_from (InMarks acc [c]) l'
          else split_from (InText (c :: acc)) l'
      | InMarks acc marks =>
          if is_end_mark c then split_from (InMarks acc (c :: marks)) l'
          else if is_ws c then rev acc :: split_from InSpaces l'
          else split_from (InText (c :: marks ++ acc)) l'
      | InSpaces =>
          if is_ws c then split_from InSpaces l'
          else if is_end_mark c then split_from (InMarks [] [c]) l'
          else split_from (InText [c]) l'
      end
  end.

Definition split_sentence_ends (text : string) : list string :=
  map PyStr.str (split_from (InText []) (PyStr.chars text)).

(** [span p l]: the longest prefix of [l] whose characters satisfy [p], and
    what follows it. *)
Fixpoint span (p : ascii -> bool) (l : list ascii)
    : list ascii * list ascii :=
  match l with
  | c :: l' =>
      if p c then let '(a, b) := span p l' in (c :: a, b) else ([], l)
  | [] => ([], [])
  end.

(** A match of [[.!?]+\s+] at the head of [l]; the result is what follows it. *)
Definition match_at (l : list ascii) : option (list ascii) :=
  match span is_end_mark l with
  | ([], _) => None
  | (_ :: _, after_marks) =>
      match span is_ws after_marks with
      | ([], _) => None
      | (_ :: _, after_spaces) => Some after_spaces
      end
  end.

(** A list whose head, if any, is neither a mark nor white space. *)
Definition plain_head (l : list ascii) : Prop :=
  match l with
  | [] => True
  | c :: _ => is_end_mark c = false /\ is_ws c = false
  end.

(** The same split, written as the search that [re.split] performs: at each
    position try to match the pattern; after a match resume behind it,
    otherwise move one character on.  [fuel] bounds the number of steps;
    [split_sentence_ends_is_search] shows that the length of the text plus
    one is enough and that the scanner above computes the same pieces. *)
Fixpoint split_search (fuel : nat) (acc l : list ascii)
    : list (list ascii) :=
  match fuel with
  | 0 => []
  | S fuel' =>
      match l with
      | [] => [rev acc]
      | c :: l' =>
          match match_at l with
          | Some rest => rev acc :: split_search fuel' [] rest
          | None => split_search fuel' (c :: acc) l'
          end
      end
  end.

End Regex.

(** ** [SemanticBrain._split_sentences] *)

Definition _split_sentences (text : string) : list string :=
  let sentences := Regex.split_sentence_ends text in
  fold_left
    (fun cleaned sentence =>
       let sentence := PyStr.strip sentence in
       if 10 <? PyStr.len sentence then cleaned ++ [sentence] else cleaned)
    sentences [].

(** ** Insertion-ordered dictionaries *)

Module Dict.
Section Ops.
Variables (K V : Type) (eqb : K -> K -> bool).

Definition t : Type := list (K * V).

(** [d.get(k)], [None] when the key is absent. *)
Fixpoint get (k : K) (d : t) : option V :=
  match d with
  | [] => None
  | (k', v) :: d' => if eqb k k' then Some v else get k d'
  end.

(** [k in d] *)
Definition mem (k : K) (d : t) : bool :=
  match get k d with Some _ => true | None => false end.

(** [d[k] = v]: an existing key keeps its position, a new key goes last. *)
Fixpoint set (k : K) (v : V) (d : t) : t :=
  match d with
  | [] => [(k, v)]
  | (k', v') :: d' =>
      if eqb k k' then (k', v) :: d' else (k', v') :: set k v d'
  end.

(** In-place update of the value stored under a present key [k]. *)
Fixpoint adjust (f : V -> V) (k : K) (d : t) : t :=
  match d with
  | [] => []
  | (k', v') :: d' =>
      if eqb k k' then (k', f v') :: d' else (k', v') :: adjust f k d'
  end.

Definition keys (d : t) : list K := map fst d.
Definition values (d : t) : list V := map snd d.
End Ops.

(** Rewriting every value in place, keys and order unchanged. *)
Definition map_values {K V W : Type} (f : V -> W) (d : t K V) : t K W :=
  map (fun kv => (fst kv, f (snd kv))) d.
End Dict.

(** ** Python built-ins on numbers *)

Module Py.

Definition Qltb (x y : Q) : bool := negb (Qle_bool y x).

(** [max(l, key=key)]: the first element whose key is maximal; [None] stands
    for the [ValueError] on an empty sequence. *)
Section MaxBy.
Variables (A B : Type) (ltb : B -> B -> bool) (key : A -> B).

Fixpoint max_from (best : A) (l : list A) : A :=
  match l with
  | [] => best
  | x :: l' => if ltb (key best) (key x) then max_from x l'
               else max_from best l'
  end.

Definition max_by (l : list A) : option A :=
  match l with
  | [] => None
  | x :: l' => Some (max_from x l')
  end.
End MaxBy.

(** [max(l)] and [min(l)] on a non-empty list of floats with head [x]. *)
Definition max_float (x : Q) (l : list Q) : Q :=
  max_from Qltb (fun q => q) x l.
Definition min_float (x : Q) (l : list Q) : Q :=
  max_from (fun a b => Qltb b a) (fun q => q) x l.

(** [sum(l)] *)
Definition sum (l : list Q) : Q := fold_left Qplus l 0%Q.

(** Nearest integer, ties to the even one. *)
Definition round_half_even (y : Q) : Z :=
  let f := Qfloor y in
  match (y - inject_Z f ?= 1 # 2)%Q with
  | Lt => f
  | Gt => (f + 1)%Z
  | Eq => if Z.even f then f else (f + 1)%Z
  end.

Definition pow10 (ndigits : nat) : Q := inject_Z (10 ^ Z.of_nat ndigits).

(** [round(x, ndigits)] *)
Definition round (x : Q) (ndigits : nat) : Q :=
  (inject_Z (round_half_even (x * pow10 ndigits)) / pow10 ndigits)%Q.

End Py.

(** ** Data model *)

Inductive Category : Type := Hunch | Wisdom | Nudge | Spell.

Definition Category_eqb (a b : Category) : bool :=
  match a, b with
  | Hunch, Hunch | Wisdom, Wisdom | Nudge, Nudge | Spell, Spell => true
  | _, _ => false
  end.

(** One entry of a [routed_content] list. *)
Record Item : Type := mkItem {
  text : string;
  confidence : Q;
  processing_method : string
}.

Definition RoutedContent : Type := Dict.t Category (list Item).

Definition rc_get := Dict.get Category_eqb (V := list Item).
Definition rc_mem := Dict.mem Category_eqb (V := list Item).
Definition rc_set := Dict.set Category_eqb (V := list Item).
Definition rc_adjust := Dict.adjust Category_eqb (V := list Item).

Record Distribution : Type := mkDistribution {
  count : nat;
  percentage : Q
}.

Record ConfidenceStats : Type := mkStats {
  average : Q;
  maximum : Q;
  minimum : Q
}.

(** The two shapes of the dictionary returned by [_generate_analytics]. *)
Inductive Analytics : Type :=
| NoContent (error : string) (total : nat)
| Report (distribution : Dict.t Category Distribution)
         (confidence_stats : Dict.t Category ConfidenceStats)
         (dominant : Category)
         (total : nat)
         (high_confidence : nat)
         (method : string).

Definition total_sentences (a : Analytics) : nat :=
  match a with
  | NoContent _ n => n
  | Report _ _ _ n _ _ => n
  end.

Definition dominant_category (a : Analytics) : option Category :=
  match a with
  | NoContent _ _ => None
  | Report _ _ c _ _ _ => Some c
  end.

Definition high_confidence_items (a : Analytics) : option nat :=
  match a with
  | NoContent _ _ => None
  | Report _ _ _ _ n _ => Some n
  end.

Definition distribution_of (a : Analytics) : Dict.t Category Distribution :=
  match a with
  | NoContent _ _ => []
  | Report d _ _ _ _ _ => d
  end.

Record ClassifyResult : Type := mkResult {
  routed_content : RoutedContent;
  analytics : Analytics;
  processing_time_ms : Q
}.

(** ** [SemanticBrain._generate_analytics] *)

Definition total_items_of (rc : RoutedContent) : nat :=
  fold_left Nat.add (map (fun items => List.length items) (Dict.values rc)) 0.

Definition Q_of_nat (n : nat) : Q := inject_Z (Z.of_nat n).

Definition percentage_of (cnt total_items : nat) : Q :=
  Py.round (Q_of_nat cnt / Q_of_nat total_items * 100)%Q 1.

(** The statistics of one category.  The mean is the exact quotient here; the
    float quotient of the source can differ from it in the last binary place,
    and so, at a tie of the third decimal, in the rounded average.  Nothing
    below is stated about the value of an average. *)
Definition stats_of (items : list Item) : ConfidenceStats :=
  match map confidence items with
  | [] => mkStats 0%Q 0%Q 0%Q
  | c :: cs =>
      let confidences := c :: cs in
      mkStats
        (Py.round (Py.sum confidences / Q_of_nat (List.length confidences))%Q 3)
        (Py.round (Py.max_float c cs) 3)
        (Py.round (Py.min_float c cs) 3)
  end.

Definition count_in (distribution : Dict.t Category Distribution)
    (k : Category) : nat :=
  match Dict.get Category_eqb k distribution with
  | Some d => count d
  | None => 0
  end.

(** The body of the loop over [routed_content.items()]. *)
Definition analytics_step (total_items : nat)
    (acc : Dict.t Category Distribution * Dict.t Category ConfidenceStats)
    (entry : Category * list Item)
    : Dict.t Category Distribution * Dict.t Category ConfidenceStats :=
  let '(distribution, confidence_stats) := acc in
  let '(category, items) := entry in
  let cnt := List.length items in
  (Dict.set Category_eqb category
     (mkDistribution cnt (percentage_of cnt total_items)) distribution,
   Dict.set Category_eqb category (stats_of items) confidence_stats).

Definition _generate_analytics (rc : RoutedContent) : Analytics :=
  let total_items := total_items_of rc in
  if total_items =? 0 then NoContent "No content to analyze" 0
  else
    let '(distribution, confidence_stats) :=
      fold_left (analytics_step total_items) rc ([], []) in
    let dominant :=
      match Py.max_by Nat.ltb (count_in distribution)
              (Dict.keys distribution) with
      | Some k => k
      | None => Hunch
      end in
    let high_confidence_count :=
      List.length
        (filter (fun item => Py.Qltb 0.7%Q (confidence item))
           (List.concat (Dict.values rc))) in
    Report distribution confidence_stats dominant total_items
      high_confidence_count "python_sentence_transformer".

(** ** [SemanticBrain._fallback_classification] *)

Definition any_word_in (words : list string) (s : string) : bool :=
  existsb (fun word => PyStr.contains word s) words.

Definition wisdom_words : list string :=
  ["data"; "research"; "study"; "evidence"; "statistics"; "shows"; "analysis"].
Definition nudge_words : list string :=
  ["should"; "recommend"; "suggest"; "implement"; "action"; "do"; "try"].
Definition spell_words : list string :=
  ["imagine"; "creative"; "innovative"; "magical"; "surprising";
   "extraordinary"].

(** The [if]/[elif] chain of the loop body; every branch overwrites the
    initial [confidence = 0.5]. *)
Definition keyword_category (lower_sentence : string) : Category * Q :=
  if any_word_in wisdom_words lower_sentence then (Wisdom, 0.7%Q)
  else if any_word_in nudge_words lower_sentence then (Nudge, 0.6%Q)
  else if any_word_in spell_words lower_sentence then (Spell, 0.6%Q)
  else (Hunch, 0.4%Q).

(** [routed_content[category].append(item)].  The key is present at every call
    site, so no [KeyError] arises (see [fallback_keys]). *)
Definition rc_append (category : Category) (item : Item)
    (rc : RoutedContent) : RoutedContent :=
  rc_adjust (fun items => items ++ [item]) category rc.

Definition fallback_step (rc : RoutedContent) (sentence : string)
    : RoutedContent :=
  if PyStr.len (PyStr.strip sentence) <? 10 then rc
  else
    let lower_sentence := PyStr.lower sentence in
    let '(category, conf) := keyword_category lower_sentence in
    rc_append category
      (mkItem (PyStr.strip sentence) conf "keyword_fallback") rc.

Definition empty_routes : RoutedContent :=
  [(Hunch, []); (Wisdom, []); (Nudge, []); (Spell, [])].

Definition _fallback_classification (text : string) : ClassifyResult :=
  let sentences := _split_sentences text in
  let rc := fold_left fallback_step sentences empty_routes in
  mkResult rc (_generate_analytics rc) 5%Q.

(** ** Exceptions *)

Inductive Exception : Type := Error (name : string).

Inductive outcome (A : Type) : Type :=
| Ok (a : A)
| Raise (e : Exception).

Arguments Ok {A} a.
Arguments Raise {A} e.

Definition bind {A B : Type} (m : outcome A) (k : A -> outcome B)
    : outcome B :=
  match m with
  | Ok a => k a
  | Raise e => Raise e
  end.

Notation "x <- m ;; k" := (bind m (fun x => k))
  (at level 61, m at next level, right associativity).

(** [l[0]], with the [IndexError] of an empty sequence. *)
Definition first {A : Type} (l : list A) : outcome A :=
  match l with
  | x :: _ => Ok x
  | [] => Raise (Error "IndexError")
  end.

(** Stable sort by descending confidence:
    [items.sort(key=lambda x: x["confidence"], reverse=True)]. *)
Fixpoint insert_desc (x : Item) (l : list Item) : list Item :=
  match l with
  | [] => [x]
  | y :: l' =>
      if Py.Qltb (confidence x) (confidence y) then y :: insert_desc x l'
      else x :: l
  end.

Definition sort_desc (l : list Item) : list Item :=
  fold_right insert_desc [] l.

(** ** The similarity path *)

Section Similarity.

(** An embedding vector (a numpy row). *)
Variable Vec : Type.

(** [sklearn.metrics.pairwise.cosine_similarity(X, Y)]: the matrix of
    pairwise similarities, or an exception (shape mismatch, bad values). *)
Variable cosine_similarity : list Vec -> list Vec -> outcome (list (list Q)).

(** A loaded [SentenceTransformer]: [encode] maps a batch of strings to one
    vector per string, or raises. *)
Record SentenceTransformer : Type := mkModel {
  encode : list string -> outcome (list Vec)
}.

Record SemanticBrain : Type := mkBrain {
  model : option SentenceTransformer;
  anchor_embeddings : Dict.t Category Vec;
  confidence_threshold : Q;
  model_name : string
}.

(** [similarities[k]]; it is only read at keys of the dictionary, so the
    default stands for a [KeyError] that cannot occur. *)
Definition similarity_of (similarities : Dict.t Category Q) (k : Category)
    : Q :=
  match Dict.get Category_eqb k similarities with
  | Some v => v
  | None => 0%Q
  end.

(** The loop filling [similarities], inside the [try]. *)
Definition similarities_of (sentence_embedding : list Vec)
    (anchors : Dict.t Category Vec) : outcome (Dict.t Category Q) :=
  fold_left
    (fun acc '(category, anchor_embedding) =>
       similarities <- acc ;;
       matrix <- cosine_similarity sentence_embedding [anchor_embedding] ;;
       row <- first matrix ;;
       similarity <- first row ;;
       Ok (Dict.set Category_eqb category similarity similarities))
    anchors (Ok []).

(** First half of the [try] block: the sentence embedding, the similarity
    to every anchor, and the best match with its score. *)
Definition best_match (m : SentenceTransformer)
    (anchors : Dict.t Category Vec) (sentence : string)
    : outcome (Category * Q) :=
  sentence_embedding <- encode m [sentence] ;;
  similarities <- similarities_of sentence_embedding anchors ;;
  match Py.max_by Py.Qltb (similarity_of similarities)
          (Dict.keys similarities) with
  | None => Raise (Error "ValueError")
  | Some best_category =>
      Ok (best_category, similarity_of similarities best_category)
  end.

(** The whole [try] block: the best match, then the threshold. *)
Definition classify_try (m : SentenceTransformer)
    (anchors : Dict.t Category Vec) (sentence : string) (threshold : Q)
    : outcome (Category * Q) :=
  best <- best_match m anchors sentence ;;
  let '(best_category, best_score) := best in
  if Py.Qltb best_score threshold then Ok (Hunch, best_score)
  else Ok (best_category, best_score).

Definition _classify_sentence (self : SemanticBrain) (sentence : string)
    (threshold : Q) : Category * Q :=
  match model self, anchor_embeddings self with
  | None, _ | _, [] => (Hunch, 0.5%Q)
  | Some m, anchors =>
      match classify_try m anchors sentence threshold with
      | Ok r => r
      | Raise _ => (Hunch, 0.3%Q)
      end
  end.

(** The [anchors] table of [_load_anchor_embeddings]. *)
Definition anchors : Dict.t Category string :=
 [
  (Hunch, "
                A clever suspicion, intuitive idea, or hypothesis. 
                Often playful speculation without concrete proof yet.
                Keywords: guess, intuition, feeling, suspect, theory, wonder, might, think.
            ");
  (Wisdom, "
                Strategic insights backed by data, research, or experience.
                Evidence-based knowledge and proven learnings.
                Keywords: research, data, studies, evidence, analysis, statistics, shows, proves.
            ");
  (Nudge, "
                Recommended actions, behavioral suggestions, or next steps.
                Gentle pushes toward desired behaviors or decisions.
                Keywords: should, recommend, suggest, action, try, implement, do, start.
            ");
  (Spell, "
                Magical creative flourishes, surprising executions, or innovative ideas.
                Unexpected solutions that feel almost magical in their creativity.
                Keywords: magical, surprising, creative, innovative, extraordinary, imagine, picture.
            ")
 ].

(** [_load_anchor_embeddings]: one batched [encode] call, then the dict
    comprehension [{category: embeddings[i] ...}]; [self.anchor_embeddings]
    is assigned only if neither raises. *)
Definition index_error {A : Type} (o : option A) : outcome A :=
  match o with
  | Some a => Ok a
  | None => Raise (Error "IndexError")
  end.

Fixpoint comprehension (embeddings : list Vec) (i : nat)
    (categories : list Category) (acc : Dict.t Category Vec)
    : outcome (Dict.t Category Vec) :=
  match categories with
  | [] => Ok acc
  | category :: rest =>
      e <- index_error (nth_error embeddings i) ;;
      comprehension embeddings (S i) rest
        (Dict.set Category_eqb category e acc)
  end.

Definition _load_anchor_embeddings (self : SemanticBrain)
    : outcome SemanticBrain :=
  match model self with
  | None => Raise (Error "AttributeError")
  | Some m =>
      let anchor_texts := Dict.values anchors in
      embeddings <- encode m anchor_texts ;;
      table <- comprehension embeddings 0 (Dict.keys anchors) [] ;;
      Ok (mkBrain (model self) table (confidence_threshold self)
            (model_name self))
  end.

(** [SemanticBrain()] *)
Definition new_brain : SemanticBrain :=
  mkBrain None [] 0.3%Q "all-MiniLM-L6-v2".

(** [initialize]: [HAS_ML] and the [SentenceTransformer] constructor are
    given; returns the flag and the state left behind.  When the anchors
    fail to load the model stays assigned. *)
Definition initialize (HAS_ML : bool)
    (load : string -> outcome SentenceTransformer) (self : SemanticBrain)
    : bool * SemanticBrain :=
  if negb HAS_ML then (false, self)
  else
    match load (model_name self) with
    | Raise _ => (false, self)
    | Ok m =>
        let self := mkBrain (Some m) (anchor_embeddings self)
                      (confidence_threshold self) (model_name self) in
        match _load_anchor_embeddings self with
        | Ok self' => (true, self')
        | Raise _ => (false, self)
        end
    end.

Definition classify_step (self : SemanticBrain) (threshold : Q)
    (rc : RoutedContent) (sentence : string) : RoutedContent :=
  if PyStr.len (PyStr.strip sentence) <? 10 then rc
  else
    let '(category, conf) := _classify_sentence self sentence threshold in
    let rc := if rc_mem category rc then rc else rc_set category [] rc in
    rc_append category
      (mkItem (PyStr.strip sentence) conf "sentence_transformer") rc.

(** [confidence_threshold or self.confidence_threshold]: [None] and [0.0]
    are falsy. *)
Definition effective_threshold (self : SemanticBrain)
    (threshold : option Q) : Q :=
  match threshold with
  | Some t => if Qeq_bool t 0 then confidence_threshold self else t
  | None => confidence_threshold self
  end.

(** [classify_text]; [start_time] and [end_time] are the two readings of the
    event-loop clock, in seconds.  No statement of the body raises, so the
    call always returns. *)
Definition classify_text (self : SemanticBrain) (text : string)
    (threshold : option Q) (start_time end_time : Q)
    : outcome ClassifyResult :=
  match model self with
  | None => Ok (_fallback_classification text)
  | Some _ =>
      let threshold := effective_threshold self threshold in
      let sentences := _split_sentences text in
      let rc := fold_left (classify_step self threshold) sentences [] in
      let rc := Dict.map_values sort_desc rc in
      let analytics := _generate_analytics rc in
      Ok (mkResult rc analytics ((end_time - start_time) * 1000)%Q)
  end.

End Similarity.

(** ** A concrete provider: exact cosine similarity on rational vectors *)

Module Exact.

Definition Vec : Type := list Q.

Fixpoint dot (x y : Vec) : outcome Q :=
  match x, y with
  | [], [] => Ok 0%Q
  | a :: x', b :: y' => d <- dot x' y' ;; Ok (a * b + d)%Q
  | _, _ => Raise (Error "ValueError")
  end.

Definition norm2 (x : Vec) : Q :=
  fold_right (fun a acc => (a * a + acc)%Q) 0%Q x.

(** The square root of a rational that is a perfect square. *)
Definition sqrt_exact (q : Q) : outcome Q :=
  let r := Qred q in
  let n := Z.sqrt (Qnum r) in
  let d := Z.sqrt (Zpos (Qden r)) in
  if ((n * n =? Qnum r) && (d * d =? Zpos (Qden r)))%Z
  then Ok (Qred (inject_Z n / inject_Z d))
  else Raise (Error "Inexact").

(** The row norm used by [normalize]: a zero norm is replaced by 1. *)
Definition row_norm (x : Vec) : outcome Q :=
  n <- sqrt_exact (norm2 x) ;;
  Ok (if Qeq_bool n 0 then 1%Q else n).

Definition cosine (x y : Vec) : outcome Q :=
  d <- dot x y ;;
  nx <- row_norm x ;;
  ny <- row_norm y ;;
  Ok (Qred (d / (nx * ny))).

Fixpoint traverse {A B : Type} (f : A -> outcome B) (l : list A)
    : outcome (list B) :=
  match l with
  | [] => Ok []
  | a :: l' => b <- f a ;; bs <- traverse f l' ;; Ok (b :: bs)
  end.

(** [cosine_similarity(X, Y)] wherever every entry is rational. *)
Definition cosine_similarity (X Y : list Vec) : outcome (list (list Q)) :=
  traverse (fun x => traverse (cosine x) Y) X.

(** A provider given by a finite table from strings to vectors; a string
    outside the table makes the batch fail. *)
Definition lookup (table : list (string * Vec)) (s : string)
    : outcome Vec :=
  match find (fun kv => String.eqb (fst kv) s) table with
  | Some kv => Ok (snd kv)
  | None => Raise (Error "ProviderError")
  end.

Fixpoint same_batch (a b : list string) : bool :=
  match a, b with
  | [], [] => true
  | x :: a', y :: b' => String.eqb x y && same_batch a' b'
  | _, _ => false
  end.

Definition table_model (anchor_vecs : list Vec)
    (table : list (string * Vec)) : SentenceTransformer Vec :=
  mkModel
    (fun batch =>
       if same_batch batch (Dict.values anchors)
       then Ok anchor_vecs
       else traverse (lookup table) batch).

End Exact.

(** ** Concrete brains used in the examples *)

Module Scenario.

Definition text : string :=
  "The data clearly shows improvement. We should implement this immediately. Imagine a magical new campaign.".

(** Four orthogonal unit anchors in five dimensions. *)
Definition anchor_vecs : list Exact.Vec :=
  [[1; 0; 0; 0; 0]; [0; 1; 0; 0; 0]; [0; 0; 1; 0; 0]; [0; 0; 0; 1; 0]]%Q.

Definition table : list (string * Exact.Vec) :=
  [("Our numbers support the plan", [1; 13; 5; 3; 14]%Q);
   ("Picture a talking billboard", [0; 0; 0; 2; 0]%Q);
   ("Surveys confirm the trend", [0; 3; 0; 0; 0]%Q);
   ("Nothing here fits at all", [-1; -1; -1; -1; 0]%Q)].

Definition loader (name : string)
    : outcome (SentenceTransformer Exact.Vec) :=
  Ok (Exact.table_model anchor_vecs table).

(** The brain after a successful [initialize]. *)
Definition brain : SemanticBrain Exact.Vec :=
  snd (initialize true loader (new_brain Exact.Vec)).

(** A provider whose every call raises, loaded behind ready anchors. *)
Definition broken_brain : SemanticBrain Exact.Vec :=
  mkBrain (Some (mkModel (fun _ => Raise (Error "ProviderError"))))
    (anchor_embeddings brain) 0.3%Q "all-MiniLM-L6-v2".

(** A provider stub: one-element embeddings and a constant similarity. *)
Definition stub_cos (X Y : list unit) : outcome (list (list Q)) :=
  Ok [[0.65%Q]].

Definition stub_brain : SemanticBrain unit :=
  mkBrain (Some (mkModel (fun batch => Ok (map (fun _ => tt) batch))))
    [(Wisdom, tt)] 0.3%Q "all-MiniLM-L6-v2".

End Scenario.

(** ** The [/explain] endpoint *)

Module PyFormat.

(** The decimal digits of a natural number. *)
Definition digits (n : N) : string := NilZero.string_of_uint (N.to_uint n).

(** [f"{x:.1%}"]: the value times 100 with one decimal, correctly rounded
    (ties to even), a minus sign for a negative value, then the percent sign.
    The product by 100 is exact here; the float product of the source can
    fall on the other side of a tie of the first decimal. *)
Definition percent1 (x : Q) : string :=
  let tenths := Z.to_N (Py.round_half_even (Qabs x * 1000)) in
  ((if Py.Qltb x 0 then "-" else "")
   ++ digits (tenths / 10) ++ "." ++ digits (tenths mod 10) ++ "%")%string.

End PyFormat.

(** [str(category)]: the dictionary key itself. *)
Definition Category_name (c : Category) : string :=
  match c with
  | Hunch => "Hunch"
  | Wisdom => "Wisdom"
  | Nudge => "Nudge"
  | Spell => "Spell"
  end.

(** The dictionary returned by [explain_classification]; the fallback answer
    has no [category] key. *)
Record Explanation : Type := mkExplanation {
  explained_sentence : string;
  explained_category : option Category;
  explained_confidence : Q;
  explanation : string;
  explained_method : string
}.

(** The sentence added after the percentage. *)
Definition confidence_remark (conf : Q) : string :=
  if Py.Qltb 0.7%Q conf then
    "High confidence classification based on semantic similarity to category anchors."
  else if Py.Qltb 0.5%Q conf then
    "Moderate confidence classification. Consider reviewing for accuracy."
  else "Low confidence classification. Defaulted to 'Hunch' category.".

(** [explain_classification] on the global brain; nothing in its [try] block
    raises, so the HTTP 500 branch is never taken. *)
Definition explain_classification (Vec : Type)
    (cos : list Vec -> list Vec -> outcome (list (list Q)))
    (semantic_brain : SemanticBrain Vec) (sentence : string)
    : outcome Explanation :=
  match model semantic_brain with
  | None =>
      Ok (mkExplanation sentence None 0.5%Q
            "Using keyword-based fallback classification" "keyword_fallback")
  | Some _ =>
      let '(category, conf) :=
        _classify_sentence cos semantic_brain sentence
          (confidence_threshold semantic_brain) in
      let explanation :=
        ("Classified as '" ++ Category_name category ++ "' with "
         ++ PyFormat.percent1 conf ++ " confidence. ")%string in
      let explanation := (explanation ++ confidence_remark conf)%string in
      Ok (mkExplanation sentence (Some category) conf explanation
            match model semantic_brain with
            | Some _ => "sentence_transformer"
            | None => "keyword_fallback"
            end)
  end.

(** ** The set-up script ([setup_python_backend.py])

    What the script reads from its environment is gathered in [World]; what
    it does to it is the list of [Action]s in the order performed.  The
    messages it prints are left out. *)

Module Setup.















End Setup.

(** ** Notions used to state the properties of the pipeline *)

(** What the fallback loop appends for one sentence, and where. *)
Definition fallback_item (s : string) : Category * Item :=
  let '(c, conf) := keyword_category (PyStr.lower s) in
  (c, mkItem (PyStr.strip s) conf "keyword_fallback").

(** What the similarity loop appends for one sentence, and where. *)
Definition similarity_item (Vec : Type)
    (cos : list Vec -> list Vec -> outcome (list (list Q)))
    (self : SemanticBrain Vec) (threshold : Q) (s : string)
    : Category * Item :=
  let '(c, conf) := _classify_sentence cos self s threshold in
  (c, mkItem (PyStr.strip s) conf "sentence_transformer").

(** The items of a sequence of routed entries that go to category [c], in
    their order. *)
Definition routed_to (c : Category) (entries : list (Category * Item))
    : list Item :=
  map snd (filter (fun e => Category_eqb (fst e) c) entries).

(** A list of items in non-increasing order of confidence. *)
Definition descending (items : list Item) : Prop :=
  StronglySorted (fun a b => (confidence b <= confidence a)%Q) items.

(** The items of a list whose confidence equals [q]. *)
Definition with_confidence (q : Q) (items : list Item) : list Item :=
  filter (fun item => Qeq_bool (confidence item) q) items.

(** The confidence that the keyword fallback attaches to a category. *)
Definition fallback_confidence (c : Category) : Q :=
  match c with
  | Wisdom => 0.7%Q
  | Nudge | Spell => 0.6%Q
  | Hunch => 0.4%Q
  end.

(** Every item of the routed content. *)
Definition all_items (rc : RoutedContent) : list Item :=
  List.concat (Dict.values rc).

(** The value under a key after more items were appended to it; the key is
    created by the first item. *)
Definition append_items (o : option (list Item)) (l : list Item)
    : option (list Item) :=
  match l with
  | [] => o
  | _ :: _ => Some (match o with Some l0 => l0 ++ l | None => l end)
  end.

(** What similarity mode stores under category [c] when every sentence of the
    text is classified by [_classify_sentence] at the threshold [used]: the
    items of the sentences that fall into [c], sorted; no key if there is
    none. *)
Definition routed_at (Vec : Type)
    (cos : list Vec -> list Vec -> outcome (list (list Q)))
    (self : SemanticBrain Vec) (used : Q) (input : string) (c : Category)
    : option (list Item) :=
  option_map sort_desc
    (append_items None
       (routed_to c
          (map (similarity_item cos self used) (_split_sentences input)))).

(** ** Further concrete brains *)

Module Demo.

Definition table : list (string * Exact.Vec) :=
  [("Margins may improve next year", [0; 2; 1; 2; 4]%Q);
   ("Our numbers support the plan", [1; 13; 5; 3; 14]%Q);
   ("Surveys confirm the trend", [0; 3; 0; 0; 0]%Q);
   ("Audits agree with the surveys", [0; 5; 0; 0; 0]%Q);
   ("Picture a talking billboard", [0; 0; 0; 2; 0]%Q)].

Definition text : string :=
  "Margins may improve next year. Surveys confirm the trend. Picture a talking billboard. Our numbers support the plan. Audits agree with the surveys".

(** The brain after a successful [initialize]. *)
Definition brain : SemanticBrain Exact.Vec :=
  snd (initialize true
         (fun _ => Ok (Exact.table_model Scenario.anchor_vecs table))
         (new_brain Exact.Vec)).

(** A model that loads but whose [encode] raises on every batch. *)
Definition failing_model : SentenceTransformer Exact.Vec :=
  mkModel (fun _ => Raise (Error "ProviderError")).

(** A model that returns only two vectors for the four anchor texts. *)
Definition short_model : SentenceTransformer Exact.Vec :=
  mkModel (fun _ => Ok [[1; 0]%Q; [0; 1]%Q]).

(** A batch with three items of different confidence under one key. *)
Definition batch : RoutedContent :=
  [(Wisdom,
    [mkItem "Surveys confirm the trend" 1%Q "sentence_transformer";
     mkItem "Our numbers support the plan" 0.65%Q "sentence_transformer";
     mkItem "Margins may improve next year" 0.4%Q "sentence_transformer"]);
   (Spell,
    [mkItem "Picture a talking billboard" 1%Q "sentence_transformer"])].

End Demo.

(** The outcome of the threshold test of [_classify_sentence] on a best
    match. *)
Definition thresholded (best : Category * Q) (threshold : Q) : Category * Q :=
  if Py.Qltb (snd best) threshold then (Hunch, snd best) else best.

(** Every routed item has a confidence satisfying [P]. *)
Definition every_confidence (P : Q -> Prop) (rc : RoutedContent) : Prop :=
  forall c items item,
    In (c, items) rc -> In item items -> P (confidence item).

(** The number of items routed to a category. *)
Definition items_count (rc : RoutedContent) (k : Category) : nat :=
  match rc_get k rc with
  | Some items => List.length items
  | None => 0
  end.

(** [k] is the first key, in the order [keys], whose count is maximal. *)
Definition first_maximal (cnt : Category -> nat) (keys : list Category)
    (k : Category) : Prop :=
  exists pre post,
    keys = pre ++ k :: post /\
    (forall k', In k' pre -> cnt k' < cnt k) /\
    (forall k', In k' post -> cnt k' <= cnt k).

(** The categories of a sequence, each at its first appearance. *)
Definition first_seen_from (seen l : list Category) : list Category :=
  fold_left
    (fun seen c => if existsb (Category_eqb c) seen then seen else seen ++ [c])
    l seen.

Definition first_seen (l : list Category) : list Category :=
  first_seen_from [] l.

(** The categories that [classify_text] assigns, sentence by sentence. *)
Definition assigned_categories (Vec : Type)
    (cos : list Vec -> list Vec -> outcome (list (list Q)))
    (self : SemanticBrain Vec) (threshold : Q) (sentences : list string)
    : list Category :=
  map (fun s => fst (_classify_sentence cos self s threshold))
    (filter (fun s => negb (PyStr.len (PyStr.strip s) <? 10)) sentences).

(** The entry that [_generate_analytics] stores for one key. *)
Definition distribution_entry (total_items : nat)
    (entry : Category * list Item) : Category * Distribution :=
  (fst entry,
   mkDistribution (List.length (snd entry))
     (percentage_of (List.length (snd entry)) total_items)).

(** The sum of the percentages of a report. *)
Definition sum_percentages (a : Analytics) : Q :=
  Py.sum (map percentage (Dict.values (distribution_of a))).

(** A list that does not begin with white space. *)
Definition clean_head (l : list ascii) : Prop :=
  match l with
  | [] => True
  | c :: _ => PyStr.isspace c = false
  end.

(** * Properties *)

(** ** The sentence-end splitter on small inputs *)

Example split_two_sentences :
  Regex.split_sentence_ends "Hi there.  Wait... what?! ok"
  = ["Hi there"; "Wait"; "what"; "ok"].
Proof. reflexivity. Qed.

(** A mark that is not followed by white space does not split. *)
Example split_needs_space :
  Regex.split_sentence_ends "v1.2 is out.Now. Go" = ["v1.2 is out.Now"; "Go"].
Proof. reflexivity. Qed.

(** A match at the very end leaves an empty last piece. *)
Example split_trailing_match :
  Regex.split_sentence_ends "Done. " = ["Done"; ""].
Proof. reflexivity. Qed.

Example split_no_mark :
  Regex.split_sentence_ends "no punctuation here" = ["no punctuation here"].
Proof. reflexivity. Qed.

(** ** Comparison and maximum *)

Lemma Qltb_true (x y : Q) : Py.Qltb x y = true <-> (x < y)%Q.
Proof.
  unfold Py.Qltb. rewrite negb_true_iff, <- not_true_iff_false, Qle_bool_iff.
  split; [apply Qnot_le_lt | apply Qlt_not_le].
Qed.

Lemma Qltb_false (x y : Q) : Py.Qltb x y = false <-> (y <= x)%Q.
Proof.
  unfold Py.Qltb. rewrite negb_false_iff. apply Qle_bool_iff.
Qed.

(** ** The threshold rule of [_classify_sentence] *)

Section ThresholdRule.

Variable Vec : Type.
Variable cos : list Vec -> list Vec -> outcome (list (list Q)).
Variable self : SemanticBrain Vec.

Lemma classify_sentence_ready m a anchors' sentence threshold :
  model self = Some m ->
  anchor_embeddings self = a :: anchors' ->
  _classify_sentence cos self sentence threshold =
  match classify_try cos m (a :: anchors') sentence threshold with
  | Ok r => r
  | Raise _ => (Hunch, 0.3%Q)
  end.
Proof.
  intros Hm Ha. unfold _classify_sentence. rewrite Hm, Ha. reflexivity.
Qed.

Lemma classify_try_best m anchors sentence threshold best :
  best_match cos m anchors sentence = Ok best ->
  classify_try cos m anchors sentence threshold =
  Ok (thresholded best threshold).
Proof.
  intros Hb. unfold classify_try, thresholded. rewrite Hb. simpl.
  destruct best as [c sc]. simpl. destruct (Py.Qltb sc threshold); reflexivity.
Qed.

Lemma classify_try_raise m anchors sentence threshold e :
  best_match cos m anchors sentence = Raise e ->
  classify_try cos m anchors sentence threshold = Raise e.
Proof.
  intros Hb. unfold classify_try. rewrite Hb. reflexivity.
Qed.

Lemma thresholded_monotone best t1 t2 :
  (t1 <= t2)%Q ->
  (fst (thresholded best t2) <> Hunch ->
   fst (thresholded best t1) = fst (thresholded best t2)) /\
  (fst (thresholded best t1) = Hunch ->
   fst (thresholded best t2) = Hunch).
Proof.
  intros Hle. unfold thresholded.
destruct (Py.Qltb (snd best) t1) eqn:H1;
  destruct (Py.Qltb (snd best) t2) eqn:H2; simpl; split; intros H;
  try congruence; try reflexivity.
all: apply Qltb_true in H1; apply Qltb_false in H2;
  exfalso; apply (Qlt_irrefl t1);
  apply Qle_lt_trans with (snd best); [|exact H1];
  apply Qle_trans with t2; assumption.
Qed.

End ThresholdRule.

(** ** The best match is a maximum *)

Lemma max_from_upper (A : Type) (key : A -> Q) (l : list A) (best : A) :
  (key best <= key (Py.max_from Py.Qltb key best l))%Q /\
  (forall y, In y l -> (key y <= key (Py.max_from Py.Qltb key best l))%Q).
Proof.
  revert best. induction l as [|x l IH]; intros best; simpl.
  - split; [apply Qle_refl|intros y []].
  - destruct (Py.Qltb (key best) (key x)) eqn:E.
    + apply Qltb_true in E. destruct (IH x) as [H1 H2]. split.
      * apply Qle_trans with (key x); [now apply Qlt_le_weak|exact H1].
      * intros y [<-|Hy]; [exact H1|now apply H2].
    + apply Qltb_false in E. destruct (IH best) as [H1 H2]. split.
      * exact H1.
      * intros y [<-|Hy]; [|now apply H2].
        apply Qle_trans with (key best); assumption.
Qed.

(** The score returned by [best_match] is the largest of the similarities. *)
Lemma best_match_maximal (Vec : Type)
    (cos : list Vec -> list Vec -> outcome (list (list Q)))
    (m : SentenceTransformer Vec) (anchs : Dict.t Category Vec)
    (s : string) (emb : list Vec) (sims : Dict.t Category Q)
    (c : Category) (score : Q) :
  encode m [s] = Ok emb ->
  similarities_of cos emb anchs = Ok sims ->
  best_match cos m anchs s = Ok (c, score) ->
  score = similarity_of sims c /\
  forall k, In k (Dict.keys sims) -> (similarity_of sims k <= score)%Q.
Proof.
  intros He Hs. unfold best_match. rewrite He. simpl. rewrite Hs. simpl.
  destruct (Dict.keys sims) as [|k0 ks]; simpl; [discriminate|].
  intros [= <- <-]. split; [reflexivity|].
  destruct (max_from_upper (similarity_of sims) ks k0) as [H1 H2].
  intros k [<-|Hk]; [exact H1|now apply H2].
Qed.

(** ** Fallback mode on the scenario text *)

(** C1: in fallback mode the scenario text yields three sentences, routed to
    Wisdom (0.7), Nudge (0.6) and Spell (0.6); three sentences in total, none
    of high confidence, and Wisdom as the dominant category. *)
Theorem fallback_scenario :
  forall (Vec : Type) (cos : list Vec -> list Vec -> outcome (list (list Q)))
         (self : SemanticBrain Vec) (threshold : option Q) (t0 t1 : Q),
    model self = None ->
    exists r,
      classify_text cos self Scenario.text threshold t0 t1 = Ok r /\
      routed_content r =
        [(Hunch, []);
         (Wisdom, [mkItem "The data clearly shows improvement" 0.7%Q
                     "keyword_fallback"]);
         (Nudge, [mkItem "We should implement this immediately" 0.6%Q
                    "keyword_fallback"]);
         (Spell, [mkItem "Imagine a magical new campaign." 0.6%Q
                    "keyword_fallback"])] /\
      total_sentences (analytics r) = 3 /\
      high_confidence_items (analytics r) = Some 0 /\
      dominant_category (analytics r) = Some Wisdom.
Proof.
  intros Vec cos self threshold t0 t1 Hmodel.
  exists (_fallback_classification Scenario.text).
  unfold classify_text. rewrite Hmodel.
  repeat split; vm_compute; reflexivity.
Qed.

Lemma fallback_scenario_witness :
  model (new_brain unit) = None /\
  exists r,
    classify_text (fun _ _ => Ok [[1%Q]]) (new_brain unit) Scenario.text
      None 0%Q 1%Q = Ok r /\
    routed_content r =
      [(Hunch, []);
       (Wisdom, [mkItem "The data clearly shows improvement" 0.7%Q
                   "keyword_fallback"]);
       (Nudge, [mkItem "We should implement this immediately" 0.6%Q
                  "keyword_fallback"]);
       (Spell, [mkItem "Imagine a magical new campaign." 0.6%Q
                  "keyword_fallback"])] /\
    total_sentences (analytics r) = 3 /\
    high_confidence_items (analytics r) = Some 0 /\
    dominant_category (analytics r) = Some Wisdom.
Proof.
  split; [reflexivity|].
  apply (@fallback_scenario unit (fun _ _ => Ok [[1%Q]]) (new_brain unit)
           None 0%Q 1%Q).
  reflexivity.
Defined.

(** ** Similarity mode: one sentence *)

(** C2: when the best anchor similarity is strictly below the threshold, the
    sentence is returned as Hunch with that similarity, unchanged, as its
    confidence. *)
Theorem below_threshold_is_hunch :
  forall (Vec : Type) (cos : list Vec -> list Vec -> outcome (list (list Q)))
         (self : SemanticBrain Vec) (m : SentenceTransformer Vec)
         (sentence : string) (threshold : Q)
         (best_category : Category) (best_score : Q),
    model self = Some m ->
    anchor_embeddings self <> [] ->
    best_match cos m (anchor_embeddings self) sentence =
      Ok (best_category, best_score) ->
    (best_score < threshold)%Q ->
    _classify_sentence cos self sentence threshold = (Hunch, best_score).
Proof.
  intros Vec cos self m sentence threshold bc bs Hm Ha Hb Hlt.
  destruct (anchor_embeddings self) as [|a anchors'] eqn:Ea; [congruence|].
  rewrite (classify_sentence_ready cos self sentence threshold Hm Ea).
  rewrite (classify_try_best cos m (a :: anchors') sentence threshold Hb).
  unfold thresholded. simpl.
  apply Qltb_true in Hlt. rewrite Hlt. reflexivity.
Qed.

(** The scenario of C2: a sentence whose best match is Wisdom at 13/20 = 0.65,
    classified at threshold 0.7. *)
Lemma below_threshold_is_hunch_witness :
  model Scenario.brain
    = Some (Exact.table_model Scenario.anchor_vecs Scenario.table) /\
  anchor_embeddings Scenario.brain <> [] /\
  best_match Exact.cosine_similarity
    (Exact.table_model Scenario.anchor_vecs Scenario.table)
    (anchor_embeddings Scenario.brain) "Our numbers support the plan"
    = Ok (Wisdom, 13 # 20)%Q /\
  (13 # 20 == 0.65)%Q /\
  (13 # 20 < 0.7)%Q /\
  _classify_sentence Exact.cosine_similarity Scenario.brain
    "Our numbers support the plan" 0.7%Q = (Hunch, 13 # 20)%Q.
Proof.
  assert (Hm : model Scenario.brain
    = Some (Exact.table_model Scenario.anchor_vecs Scenario.table))
    by reflexivity.
  assert (Ha : anchor_embeddings Scenario.brain <> [])
    by (vm_compute; discriminate).
  assert (Hb : best_match Exact.cosine_similarity
    (Exact.table_model Scenario.anchor_vecs Scenario.table)
    (anchor_embeddings Scenario.brain) "Our numbers support the plan"
    = Ok (Wisdom, 13 # 20)%Q) by (vm_compute; reflexivity).
  assert (Hlt : (13 # 20 < 0.7)%Q) by reflexivity.
  split; [exact Hm|]. split; [exact Ha|]. split; [exact Hb|].
  split; [reflexivity|]. split; [exact Hlt|].
  exact (@below_threshold_is_hunch _ Exact.cosine_similarity Scenario.brain
           _ "Our numbers support the plan" 0.7%Q Wisdom (13 # 20)%Q
           Hm Ha Hb Hlt).
Defined.

(** C6: when the provider raises while a sentence is being encoded, the
    sentence is returned as (Hunch, 0.3); the result is a plain value, so
    nothing propagates. *)
Theorem provider_failure_degrades :
  forall (Vec : Type) (cos : list Vec -> list Vec -> outcome (list (list Q)))
         (self : SemanticBrain Vec) (m : SentenceTransformer Vec)
         (sentence : string) (threshold : Q) (e : Exception),
    model self = Some m ->
    anchor_embeddings self <> [] ->
    encode m [sentence] = Raise e ->
    _classify_sentence cos self sentence threshold = (Hunch, 0.3%Q).
Proof.
  intros Vec cos self m sentence threshold e Hm Ha He.
  destruct (anchor_embeddings self) as [|a anchors'] eqn:Ea; [congruence|].
  rewrite (classify_sentence_ready cos self sentence threshold Hm Ea).
  rewrite (classify_try_raise cos m (a :: anchors') sentence threshold
             (e := e)); [reflexivity|].
  unfold best_match. rewrite He. reflexivity.
Qed.

Lemma provider_failure_degrades_witness :
  _classify_sentence Exact.cosine_similarity Scenario.broken_brain
    "Surveys confirm the trend" 0.3%Q = (Hunch, 0.3%Q).
Proof.
  apply (@provider_failure_degrades _ Exact.cosine_similarity
           Scenario.broken_brain
           (mkModel (fun _ => Raise (Error "ProviderError")))
           "Surveys confirm the trend" 0.3%Q (Error "ProviderError")).
  - reflexivity.
  - vm_compute. discriminate.
  - reflexivity.
Defined.

(** C8: for thresholds t1 <= t2, a non-Hunch answer at t2 is the answer at t1,
    and a Hunch answer at t1 is the answer at t2. *)
Theorem threshold_monotone :
  forall (Vec : Type) (cos : list Vec -> list Vec -> outcome (list (list Q)))
         (self : SemanticBrain Vec) (sentence : string) (t1 t2 : Q),
    (t1 <= t2)%Q ->
    (fst (_classify_sentence cos self sentence t2) <> Hunch ->
     fst (_classify_sentence cos self sentence t1) =
     fst (_classify_sentence cos self sentence t2)) /\
    (fst (_classify_sentence cos self sentence t1) = Hunch ->
     fst (_classify_sentence cos self sentence t2) = Hunch).
Proof.
  intros Vec cos self sentence t1 t2 Hle.
  unfold _classify_sentence.
  destruct (model self) as [m|]; [|simpl; split; congruence].
  destruct (anchor_embeddings self) as [|a anchors'];
    [simpl; split; congruence|].
  destruct (best_match cos m (a :: anchors') sentence) as [best|e] eqn:Hb.
  - rewrite !(classify_try_best cos m (a :: anchors') sentence _ Hb).
    apply thresholded_monotone. exact Hle.
  - rewrite !(classify_try_raise cos m (a :: anchors') sentence _ Hb).
    simpl. split; congruence.
Qed.

Lemma threshold_monotone_witness :
  (0.3 <= 0.7)%Q /\
  fst (_classify_sentence Exact.cosine_similarity Scenario.brain
         "Our numbers support the plan" 0.3%Q) = Wisdom /\
  fst (_classify_sentence Exact.cosine_similarity Scenario.brain
         "Our numbers support the plan" 0.7%Q) = Hunch /\
  (fst (_classify_sentence Exact.cosine_similarity Scenario.brain
          "Our numbers support the plan" 0.7%Q) <> Hunch ->
   fst (_classify_sentence Exact.cosine_similarity Scenario.brain
          "Our numbers support the plan" 0.3%Q) =
   fst (_classify_sentence Exact.cosine_similarity Scenario.brain
          "Our numbers support the plan" 0.7%Q)) /\
  (fst (_classify_sentence Exact.cosine_similarity Scenario.brain
          "Our numbers support the plan" 0.3%Q) = Hunch ->
   fst (_classify_sentence Exact.cosine_similarity Scenario.brain
          "Our numbers support the plan" 0.7%Q) = Hunch).
Proof.
  split; [discriminate|].
  split; [vm_compute; reflexivity|].
  split; [vm_compute; reflexivity|].
  apply (@threshold_monotone _ Exact.cosine_similarity Scenario.brain
           "Our numbers support the plan" 0.3%Q 0.7%Q).
  discriminate.
Defined.

(** ** The sentence segmenter *)

Lemma fold_filter_append (A : Type) (f : A -> A) (keep : A -> bool)
    (l acc : list A) :
  fold_left (fun cleaned x => if keep (f x) then cleaned ++ [f x] else cleaned)
    l acc
  = acc ++ filter keep (map f l).
Proof.
  revert acc. induction l as [|x l IH]; intros acc; simpl.
  - now rewrite app_nil_r.
  - rewrite IH. destruct (keep (f x)); simpl; [|reflexivity].
    now rewrite <- app_assoc.
Qed.

(** What the segmenter keeps: the trimmed fragments longer than 10. *)
Lemma split_sentences_spec (text : string) :
  _split_sentences text =
  filter (fun s => 10 <? PyStr.len s)
    (map PyStr.strip (Regex.split_sentence_ends text)).
Proof.
  unfold _split_sentences.
  exact (fold_filter_append PyStr.strip (fun s => 10 <? PyStr.len s)
           (Regex.split_sentence_ends text) []).
Qed.

Lemma split_sentences_long (text s : string) :
  In s (_split_sentences text) -> 10 < PyStr.len s.
Proof.
  rewrite split_sentences_spec, filter_In. intros [_ H].
  now apply Nat.ltb_lt.
Qed.

(** C3: a fragment of trimmed length exactly 10 is dropped by the segmenter,
    although the length floor of the pipeline is 10. *)
Theorem split_sentences_drops_length_10 :
  Regex.split_sentence_ends "Buy it now. This one is long enough."
    = ["Buy it now"; "This one is long enough."] /\
  PyStr.len (PyStr.strip "Buy it now") = 10 /\
  (PyStr.len (PyStr.strip "Buy it now") <? 10) = false /\
  _split_sentences "Buy it now. This one is long enough."
    = ["This one is long enough."].
Proof.
  repeat split; vm_compute; reflexivity.
Qed.

(** ** Thresholds given to [classify_text] *)

(** C5 fails on the code: thresholds 0, -0.5 and 1.5 all produce a result. *)
Lemma invalid_threshold_accepted :
  ~ (forall t : Q,
       ~ (0 < t /\ t <= 1)%Q ->
       exists e,
         classify_text Exact.cosine_similarity Scenario.brain
           "Surveys confirm the trend" (Some t) 0%Q 1%Q = Raise e) /\
  (exists r0 r1 r2,
     classify_text Exact.cosine_similarity Scenario.brain
       "Surveys confirm the trend" (Some 0%Q) 0%Q 1%Q = Ok r0 /\
     classify_text Exact.cosine_similarity Scenario.brain
       "Surveys confirm the trend" (Some (- 0.5)%Q) 0%Q 1%Q = Ok r1 /\
     classify_text Exact.cosine_similarity Scenario.brain
       "Surveys confirm the trend" (Some 1.5%Q) 0%Q 1%Q = Ok r2 /\
     rc_get Wisdom (routed_content r0)
       = Some [mkItem "Surveys confirm the trend" 1%Q "sentence_transformer"] /\
     rc_get Wisdom (routed_content r1)
       = Some [mkItem "Surveys confirm the trend" 1%Q "sentence_transformer"] /\
     rc_get Hunch (routed_content r2)
       = Some [mkItem "Surveys confirm the trend" 1%Q "sentence_transformer"]).
Proof.
  split.
  - intros H. destruct (H (- 0.5)%Q) as [e He].
    + intros [Hpos _]. revert Hpos. vm_compute. discriminate.
    + revert He. vm_compute. discriminate.
  - do 3 eexists. repeat split; vm_compute; reflexivity.
Qed.

(** ** Facts on dictionaries *)

Lemma Category_eqb_eq (a b : Category) : Category_eqb a b = true <-> a = b.
Proof. destruct a, b; simpl; split; intros; congruence. Qed.

Lemma Category_eqb_refl (a : Category) : Category_eqb a a = true.
Proof. now apply Category_eqb_eq. Qed.

Lemma Category_eqb_neq (a b : Category) : Category_eqb a b = false <-> a <> b.
Proof. destruct a, b; simpl; split; intros; congruence. Qed.

Section DictFacts.

Variable V : Type.
Implicit Types (k : Category) (v : V) (d : Dict.t Category V).

Lemma get_in k v d :
  Dict.get Category_eqb k d = Some v -> In (k, v) d.
Proof.
  induction d as [|[k' v'] d IH]; simpl; [discriminate|].
  destruct (Category_eqb k k') eqn:E.
  - apply Category_eqb_eq in E. intros [= ->]. subst. now left.
  - intros H. right. now apply IH.
Qed.

Lemma get_none_keys k d :
  Dict.get Category_eqb k d = None <-> ~ In k (Dict.keys d).
Proof.
  induction d as [|[k' v'] d IH]; simpl; [tauto|].
  destruct (Category_eqb k k') eqn:E.
  - apply Category_eqb_eq in E. subst. split; [discriminate|tauto].
  - apply Category_eqb_neq in E. rewrite IH. split.
    + intros H [H1|H1]; [congruence|tauto].
    + tauto.
Qed.

Lemma in_set k v d (k' : Category) (v' : V) :
  In (k', v') (Dict.set Category_eqb k v d) ->
  (k', v') = (k, v) \/ In (k', v') d.
Proof.
  induction d as [|[k0 v0] d IH]; simpl.
  - intros [H|[]]. now left.
  - destruct (Category_eqb k k0) eqn:E; simpl.
    + apply Category_eqb_eq in E. subst.
      intros [H|H]; [now left|right; now right].
    + intros [H|H]; [right; now left|].
      destruct (IH H); [now left|right; now right].
Qed.

Lemma in_adjust (f : V -> V) k d (k' : Category) (v' : V) :
  In (k', v') (Dict.adjust Category_eqb f k d) ->
  In (k', v') d \/ exists v, In (k', v) d /\ v' = f v.
Proof.
  induction d as [|[k0 v0] d IH]; simpl; [tauto|].
  destruct (Category_eqb k k0) eqn:E; simpl.
  - intros [[= <- <-]|H]; [right; exists v0; split; [now left|reflexivity]|].
    left. now right.
  - intros [H|H]; [left; now left|].
    destruct (IH H) as [H1|[v [H1 H2]]]; [left; now right|].
    right. exists v. split; [now right|exact H2].
Qed.

Lemma keys_adjust (f : V -> V) k d :
  Dict.keys (Dict.adjust Category_eqb f k d) = Dict.keys d.
Proof.
  induction d as [|[k0 v0] d IH]; simpl; [reflexivity|].
  destruct (Category_eqb k k0); simpl; [reflexivity|].
  f_equal. exact IH.
Qed.

Lemma keys_set_absent k v d :
  ~ In k (Dict.keys d) -> Dict.keys (Dict.set Category_eqb k v d) = Dict.keys d ++ [k].
Proof.
  induction d as [|[k0 v0] d IH]; simpl; [reflexivity|].
  destruct (Category_eqb k k0) eqn:E; simpl.
  - apply Category_eqb_eq in E. intros H. exfalso. apply H. left. congruence.
  - intros H. f_equal. apply IH. tauto.
Qed.

Lemma set_absent k v d :
  ~ In k (Dict.keys d) -> Dict.set Category_eqb k v d = d ++ [(k, v)].
Proof.
  induction d as [|[k0 v0] d IH]; simpl; [reflexivity|].
  destruct (Category_eqb k k0) eqn:E; simpl.
  - apply Category_eqb_eq in E. intros H. exfalso. apply H. left. congruence.
  - intros H. rewrite IH; tauto.
Qed.

End DictFacts.

Lemma keys_map_values (V W : Type) (f : V -> W) (d : Dict.t Category V) :
  Dict.keys (Dict.map_values f d) = Dict.keys d.
Proof.
  unfold Dict.keys, Dict.map_values. rewrite map_map. reflexivity.
Qed.

Lemma mem_keys (k : Category) (rc : RoutedContent) :
  rc_mem k rc = true <-> In k (Dict.keys rc).
Proof.
  unfold rc_mem, Dict.mem.
  destruct (Dict.get Category_eqb k rc) eqn:E.
  - split; [intros _|reflexivity].
    apply get_in in E. unfold Dict.keys.
    change k with (fst (k, l)). now apply in_map.
  - apply get_none_keys in E. split; [discriminate|tauto].
Qed.

(** ** The range of confidences *)

Section ConfidenceInvariant.

(** A property of confidences that every routed item keeps. *)
Variable P : Q -> Prop.

Lemma all_conf_append (c : Category) (item : Item) (rc : RoutedContent) :
  every_confidence P rc -> P (confidence item) -> every_confidence P (rc_append c item rc).
Proof.
  intros Hrc Hit c' items' item' Hin Hin'.
  unfold rc_append, rc_adjust in Hin.
  apply in_adjust in Hin. destruct Hin as [Hin|[v [Hin ->]]].
  - exact (Hrc _ _ _ Hin Hin').
  - apply in_app_or in Hin'. destruct Hin' as [Hin'|[<-|[]]].
    + exact (Hrc _ _ _ Hin Hin').
    + exact Hit.
Qed.

Lemma all_conf_set_nil (c : Category) (rc : RoutedContent) :
  every_confidence P rc -> every_confidence P (rc_set c [] rc).
Proof.
  intros Hrc c' items' item' Hin Hin'.
  unfold rc_set in Hin. apply in_set in Hin.
  destruct Hin as [[= -> ->]|Hin]; [destruct Hin'|].
  exact (Hrc _ _ _ Hin Hin').
Qed.

Lemma in_insert_desc (x y : Item) (l : list Item) :
  In y (insert_desc x l) <-> y = x \/ In y l.
Proof.
  induction l as [|z l IH]; simpl.
  - intuition congruence.
  - destruct (Py.Qltb (confidence x) (confidence z)); simpl.
    + rewrite IH. intuition congruence.
    + intuition congruence.
Qed.

Lemma in_sort_desc (y : Item) (l : list Item) :
  In y (sort_desc l) <-> In y l.
Proof.
  induction l as [|x l IH]; simpl; [tauto|].
  rewrite in_insert_desc, IH. intuition congruence.
Qed.

Lemma all_conf_sorted (rc : RoutedContent) :
  every_confidence P rc -> every_confidence P (Dict.map_values sort_desc rc).
Proof.
  intros Hrc c items item Hin Hin'.
  unfold Dict.map_values in Hin. apply in_map_iff in Hin.
  destruct Hin as [[c0 items0] [[= <- <-] Hin]].
  apply (proj1 (in_sort_desc _ _)) in Hin'. exact (Hrc _ _ _ Hin Hin').
Qed.

Lemma all_conf_fold (step : RoutedContent -> string -> RoutedContent)
    (sentences : list string) (rc : RoutedContent) :
  (forall rc s, every_confidence P rc -> every_confidence P (step rc s)) ->
  every_confidence P rc -> every_confidence P (fold_left step sentences rc).
Proof.
  intros Hstep. revert rc.
  induction sentences as [|s ss IH]; intros rc Hrc; simpl; auto.
Qed.

Lemma all_conf_fallback_step (rc : RoutedContent) (s : string) :
  P 0.7%Q -> P 0.6%Q -> P 0.4%Q ->
  every_confidence P rc -> every_confidence P (fallback_step rc s).
Proof.
  intros H7 H6 H4 Hrc. unfold fallback_step.
  destruct (PyStr.len (PyStr.strip s) <? 10); [exact Hrc|].
  unfold keyword_category.
  destruct (any_word_in wisdom_words _); [now apply all_conf_append|].
  destruct (any_word_in nudge_words _); [now apply all_conf_append|].
  destruct (any_word_in spell_words _); now apply all_conf_append.
Qed.

Variable Vec : Type.
Variable cos : list Vec -> list Vec -> outcome (list (list Q)).

(** The entries of every similarity matrix satisfy [P], and so do the
    constants of the code. *)
Hypothesis cos_P :
  forall X Y M row v, cos X Y = Ok M -> In row M -> In v row -> P v.
Hypothesis P_zero : P 0%Q.

Lemma similarities_raise (emb : list Vec) (anchs : Dict.t Category Vec)
    (e : Exception) :
  fold_left
    (fun acc '(category, anchor_embedding) =>
       similarities <- acc ;;
       matrix <- cos emb [anchor_embedding] ;;
       row <- first matrix ;;
       similarity <- first row ;;
       Ok (Dict.set Category_eqb category similarity similarities))
    anchs (Raise e) = Raise e.
Proof.
  induction anchs as [|[c a] anchs IH]; simpl; [reflexivity|exact IH].
Qed.

Lemma similarities_P (emb : list Vec) (anchs : Dict.t Category Vec)
    (acc sims : Dict.t Category Q) :
  (forall k v, In (k, v) acc -> P v) ->
  fold_left
    (fun acc '(category, anchor_embedding) =>
       similarities <- acc ;;
       matrix <- cos emb [anchor_embedding] ;;
       row <- first matrix ;;
       similarity <- first row ;;
       Ok (Dict.set Category_eqb category similarity similarities))
    anchs (Ok acc) = Ok sims ->
  forall k v, In (k, v) sims -> P v.
Proof.
  revert acc. induction anchs as [|[c a] anchs IH]; intros acc Hacc; simpl.
  - intros [= <-]. exact Hacc.
  - destruct (cos emb [a]) as [M|e] eqn:EM; simpl;
      [|rewrite similarities_raise; discriminate].
    destruct M as [|row M']; simpl;
      [rewrite similarities_raise; discriminate|].
    destruct row as [|v0 row']; simpl;
      [rewrite similarities_raise; discriminate|].
    apply IH. intros k v Hin. apply in_set in Hin.
    destruct Hin as [[= -> ->]|Hin]; [|exact (Hacc _ _ Hin)].
    apply (@cos_P emb [a] _ (v0 :: row') _ EM); now left.
Qed.

Lemma best_match_P (m : SentenceTransformer Vec)
    (anchs : Dict.t Category Vec) (s : string) (best : Category * Q) :
  best_match cos m anchs s = Ok best -> P (snd best).
Proof.
  unfold best_match. destruct (encode m [s]) as [emb|e]; simpl;
    [|discriminate].
  destruct (similarities_of cos emb anchs) as [sims|e] eqn:Es; simpl;
    [|discriminate].
  destruct (Py.max_by Py.Qltb (similarity_of sims) (Dict.keys sims))
    as [k|]; [|discriminate].
  intros [= <-]. simpl. unfold similarity_of.
  destruct (Dict.get Category_eqb k sims) as [v|] eqn:Eg; [|exact P_zero].
  apply get_in in Eg. unfold similarities_of in Es.
  refine (@similarities_P emb anchs [] sims _ Es _ _ Eg).
  intros ? ? [].
Qed.

Lemma classify_sentence_P (self : SemanticBrain Vec) (s : string)
    (threshold : Q) :
  P 0.5%Q -> P 0.3%Q ->
  P (snd (_classify_sentence cos self s threshold)).
Proof.
  intros H5 H3. unfold _classify_sentence.
  destruct (model self) as [m|]; [|exact H5].
  destruct (anchor_embeddings self) as [|a anchs]; [exact H5|].
  destruct (best_match cos m (a :: anchs) s) as [best|e] eqn:Hb.
  - rewrite (classify_try_best cos m (a :: anchs) s threshold Hb).
    unfold thresholded.
    destruct (Py.Qltb (snd best) threshold); simpl;
      exact (best_match_P m (a :: anchs) s Hb).
  - rewrite (classify_try_raise cos m (a :: anchs) s threshold Hb).
    exact H3.
Qed.

Lemma all_conf_classify_step (self : SemanticBrain Vec) (threshold : Q)
    (rc : RoutedContent) (s : string) :
  P 0.5%Q -> P 0.3%Q ->
  every_confidence P rc -> every_confidence P (classify_step cos self threshold rc s).
Proof.
  intros H5 H3 Hrc. unfold classify_step.
  destruct (PyStr.len (PyStr.strip s) <? 10); [exact Hrc|].
  pose proof (classify_sentence_P self s threshold H5 H3) as Hc.
  destruct (_classify_sentence cos self s threshold) as [c conf].
  simpl in Hc. apply all_conf_append; [|exact Hc].
  destruct (rc_mem c rc); [exact Hrc|now apply all_conf_set_nil].
Qed.

Lemma all_conf_classify_text (self : SemanticBrain Vec) (text : string)
    (threshold : option Q) (t0 t1 : Q) (r : ClassifyResult) :
  P 0.7%Q -> P 0.6%Q -> P 0.5%Q -> P 0.4%Q -> P 0.3%Q ->
  classify_text cos self text threshold t0 t1 = Ok r ->
  every_confidence P (routed_content r).
Proof.
  intros H7 H6 H5 H4 H3. unfold classify_text.
  destruct (model self) as [m|]; intros [= <-]; simpl.
  - apply all_conf_sorted. apply all_conf_fold.
    + intros rc s. now apply all_conf_classify_step.
    + intros ? ? ? [].
  - apply all_conf_fold.
    + intros rc s. now apply all_conf_fallback_step.
    + unfold empty_routes. intros c items item Hin Hin'.
      simpl in Hin.
      destruct Hin as [[= <- <-]|[[= <- <-]|[[= <- <-]|[[= <- <-]|[]]]]];
        destruct Hin'.
Qed.

End ConfidenceInvariant.

(** C4, as the code has it: no clamping is applied, so a confidence is a raw
    cosine similarity or one of the constants; whenever similarities lie in
    [-1, 1], so does every confidence that [classify_text] produces. *)
Theorem confidence_within_cosine_range :
  forall (Vec : Type) (cos : list Vec -> list Vec -> outcome (list (list Q)))
         (self : SemanticBrain Vec) (text : string) (threshold : option Q)
         (t0 t1 : Q) (r : ClassifyResult),
    (forall X Y M row v,
        cos X Y = Ok M -> In row M -> In v row -> (-1 <= v /\ v <= 1)%Q) ->
    classify_text cos self text threshold t0 t1 = Ok r ->
    forall c items item,
      In (c, items) (routed_content r) -> In item items ->
      (-1 <= confidence item /\ confidence item <= 1)%Q.
Proof.
  intros Vec cos self text threshold t0 t1 r Hcos Hr.
  refine (@all_conf_classify_text (fun q => (-1 <= q /\ q <= 1)%Q) Vec cos
            Hcos _ self text threshold t0 t1 r _ _ _ _ _ Hr);
    split; discriminate.
Qed.

Lemma confidence_within_cosine_range_witness :
  classify_text Scenario.stub_cos Scenario.stub_brain
    "Surveys confirm the trend" (Some 0.7%Q) 0%Q 1%Q
  = Ok (mkResult
          [(Hunch, [mkItem "Surveys confirm the trend" 0.65%Q
                      "sentence_transformer"])]
          (_generate_analytics
             [(Hunch, [mkItem "Surveys confirm the trend" 0.65%Q
                         "sentence_transformer"])])
          1000%Q) /\
  (-1 <= 0.65 /\ 0.65 <= 1)%Q.
Proof.
  assert (Hr : classify_text Scenario.stub_cos Scenario.stub_brain
    "Surveys confirm the trend" (Some 0.7%Q) 0%Q 1%Q
  = Ok (mkResult
          [(Hunch, [mkItem "Surveys confirm the trend" 0.65%Q
                      "sentence_transformer"])]
          (_generate_analytics
             [(Hunch, [mkItem "Surveys confirm the trend" 0.65%Q
                         "sentence_transformer"])])
          1000%Q)) by (vm_compute; reflexivity).
  split; [exact Hr|].
  refine (@confidence_within_cosine_range unit Scenario.stub_cos
            Scenario.stub_brain "Surveys confirm the trend" (Some 0.7%Q)
            0%Q 1%Q _ _ Hr Hunch _
            (mkItem "Surveys confirm the trend" 0.65%Q "sentence_transformer")
            (or_introl eq_refl) (or_introl eq_refl)).
  intros X Y M row v [= <-] [<-|[]] [<-|[]]. split; discriminate.
Defined.

(** C4 fails on the code: a sentence opposed to every anchor is routed with
    the negative similarity -1/2 as its confidence. *)
Lemma negative_confidence :
  exists r item,
    classify_text Exact.cosine_similarity Scenario.brain
      "Nothing here fits at all" (Some 0.3%Q) 0%Q 1%Q = Ok r /\
    rc_get Hunch (routed_content r) = Some [item] /\
    confidence item = (-1 # 2)%Q /\
    ~ (0 <= confidence item /\ confidence item <= 1)%Q.
Proof.
  eexists. eexists. split; [vm_compute; reflexivity|].
  split; [vm_compute; reflexivity|].
  split; [reflexivity|].
  simpl. intros [H _]. revert H. vm_compute. intros H. now apply H.
Qed.

(** ** The first maximum *)

Section FirstMax.

Variable A : Type.
Variable key : A -> nat.

Lemma max_from_first (l : list A) :
  forall (pre : list A) (best : A) (mid : list A),
    (forall y, In y pre -> key y < key best) ->
    (forall y, In y mid -> key y <= key best) ->
    exists pre' post,
      pre ++ best :: mid ++ l
        = pre' ++ Py.max_from Nat.ltb key best l :: post /\
      (forall y, In y pre' -> key y < key (Py.max_from Nat.ltb key best l)) /\
      (forall y, In y post -> key y <= key (Py.max_from Nat.ltb key best l)).
Proof.
  induction l as [|x l IH]; intros pre best mid Hpre Hmid; simpl.
  - exists pre, mid. rewrite app_nil_r. auto.
  - destruct (key best <? key x) eqn:E.
    + apply Nat.ltb_lt in E.
      destruct (IH (pre ++ best :: mid) x (@nil A)) as (pre' & post & Heq & H1 & H2).
      * intros y Hy. apply in_app_or in Hy.
        destruct Hy as [Hy|[<-|Hy]]; [|exact E|].
        -- specialize (Hpre y Hy). lia.
        -- specialize (Hmid y Hy). lia.
      * intros y [].
      * exists pre', post. split; [|auto].
        rewrite <- Heq. simpl. rewrite <- app_assoc. reflexivity.
    + apply Nat.ltb_ge in E.
      destruct (IH pre best (mid ++ [x])) as (pre' & post & Heq & H1 & H2).
      * exact Hpre.
      * intros y Hy. apply in_app_or in Hy.
        destruct Hy as [Hy|[<-|[]]]; [now apply Hmid|exact E].
      * exists pre', post. split; [|auto].
        rewrite <- Heq. rewrite <- app_assoc. reflexivity.
Qed.

Lemma max_by_first (x : A) (l : list A) :
  exists m pre post,
    Py.max_by Nat.ltb key (x :: l) = Some m /\
    x :: l = pre ++ m :: post /\
    (forall y, In y pre -> key y < key m) /\
    (forall y, In y post -> key y <= key m).
Proof.
  destruct (@max_from_first l [] x []) as (pre & post & Heq & H1 & H2).
  - intros y [].
  - intros y [].
  - exists (Py.max_from Nat.ltb key x l), pre, post. simpl. auto.
Qed.

End FirstMax.

(** ** The analytics of a batch *)


Lemma keys_app (V : Type) (d1 d2 : Dict.t Category V) :
  Dict.keys (d1 ++ d2) = Dict.keys d1 ++ Dict.keys d2.
Proof. unfold Dict.keys. apply map_app. Qed.

Lemma analytics_fold (total_items : nat) (rc : RoutedContent) :
  forall (d0 : Dict.t Category Distribution)
         (s0 : Dict.t Category ConfidenceStats),
    NoDup (Dict.keys d0 ++ Dict.keys rc) ->
    Dict.keys s0 = Dict.keys d0 ->
    fold_left (analytics_step total_items) rc (d0, s0)
    = (d0 ++ map (distribution_entry total_items) rc,
       s0 ++ map (fun entry => (fst entry, stats_of (snd entry))) rc).
Proof.
  induction rc as [|[c items] rc IH]; intros d0 s0 Hnd Hk; simpl.
  - now rewrite !app_nil_r.
  - assert (Hc : ~ In c (Dict.keys d0)).
    { intros Hin. apply NoDup_remove_2 in Hnd. apply Hnd.
      apply in_or_app. now left. }
    rewrite (@set_absent Distribution c _ d0 Hc).
    rewrite (@set_absent ConfidenceStats c (stats_of items) s0)
      by (rewrite Hk; exact Hc).
    rewrite IH.
    + rewrite <- !app_assoc. reflexivity.
    + rewrite keys_app. simpl. rewrite <- app_assoc. exact Hnd.
    + rewrite !keys_app. simpl. now rewrite Hk.
Qed.

Lemma keys_distribution (total_items : nat) (rc : RoutedContent) :
  Dict.keys (map (distribution_entry total_items) rc) = Dict.keys rc.
Proof.
  unfold Dict.keys. rewrite map_map. reflexivity.
Qed.

Lemma count_in_distribution (total_items : nat) (rc : RoutedContent)
    (k : Category) :
  count_in (map (distribution_entry total_items) rc) k = items_count rc k.
Proof.
  unfold count_in, items_count, rc_get.
  induction rc as [|[c items] rc IH]; simpl; [reflexivity|].
  destruct (Category_eqb k c); [reflexivity|exact IH].
Qed.

Lemma max_from_ext (A B : Type) (ltb : B -> B -> bool) (key1 key2 : A -> B) :
  (forall x, key1 x = key2 x) ->
  forall l best, Py.max_from ltb key1 best l = Py.max_from ltb key2 best l.
Proof.
  intros Hext. induction l as [|x l IH]; intros best; simpl; [reflexivity|].
  rewrite !Hext. destruct (ltb (key2 best) (key2 x)); apply IH.
Qed.

(** The report of a non-empty batch with distinct keys, in closed form. *)
Lemma generate_analytics_report (rc : RoutedContent) :
  NoDup (Dict.keys rc) ->
  total_items_of rc <> 0 ->
  _generate_analytics rc =
  Report (map (distribution_entry (total_items_of rc)) rc)
    (map (fun entry => (fst entry, stats_of (snd entry))) rc)
    match Py.max_by Nat.ltb (items_count rc) (Dict.keys rc) with
    | Some k => k
    | None => Hunch
    end
    (total_items_of rc)
    (List.length
       (filter (fun item => Py.Qltb 0.7%Q (confidence item))
          (List.concat (Dict.values rc))))
    "python_sentence_transformer".
Proof.
  intros Hnd Htot. unfold _generate_analytics. cbv zeta.
  apply Nat.eqb_neq in Htot. rewrite Htot.
  assert (HF := @analytics_fold (total_items_of rc) rc [] [] Hnd eq_refl).
  destruct (fold_left (analytics_step (total_items_of rc)) rc ([], []))
    as [d s] eqn:EF.
  injection (eq_trans (eq_sym EF) HF) as -> ->.
  simpl. rewrite keys_distribution. f_equal.
  destruct (Dict.keys rc) as [|k ks]; [reflexivity|]. simpl.
  rewrite (max_from_ext Nat.ltb _ (items_count rc)
             (count_in_distribution (total_items_of rc) rc)).
  reflexivity.
Qed.

Lemma total_sentences_items (rc : RoutedContent) :
  total_sentences (_generate_analytics rc) = total_items_of rc.
Proof.
  unfold _generate_analytics.
  destruct (total_items_of rc =? 0) eqn:E.
  - apply Nat.eqb_eq in E. now rewrite E.
  - destruct (fold_left _ rc _). reflexivity.
Qed.

(** The dominant category is the first key, in the key order of the
    dictionary, whose count is maximal. *)
Lemma dominant_first_maximal (rc : RoutedContent) :
  NoDup (Dict.keys rc) ->
  total_items_of rc <> 0 ->
  exists k,
    dominant_category (_generate_analytics rc) = Some k /\
    first_maximal (items_count rc) (Dict.keys rc) k.
Proof.
  intros Hnd Htot. rewrite (generate_analytics_report rc Hnd Htot). simpl.
  destruct (Dict.keys rc) as [|k ks] eqn:Ek.
  - exfalso. apply Htot. destruct rc; [reflexivity|discriminate].
  - destruct (max_by_first (items_count rc) k ks)
      as (m & pre & post & Hm & Heq & H1 & H2).
    rewrite Hm. exists m. split; [reflexivity|].
    exists pre, post. auto.
Qed.

(** ** The key order of [routed_content] *)

Lemma fallback_keys (sentences : list string) (rc : RoutedContent) :
  Dict.keys (fold_left fallback_step sentences rc) = Dict.keys rc.
Proof.
  revert rc. induction sentences as [|s ss IH]; intros rc; simpl;
    [reflexivity|].
  rewrite IH. unfold fallback_step.
  destruct (PyStr.len (PyStr.strip s) <? 10); [reflexivity|].
  destruct (keyword_category (PyStr.lower s)) as [c conf].
  apply keys_adjust.
Qed.

Lemma existsb_keys (c : Category) (rc : RoutedContent) :
  existsb (Category_eqb c) (Dict.keys rc) = rc_mem c rc.
Proof.
  unfold rc_mem, Dict.mem.
  induction rc as [|[k v] rc IH]; simpl; [reflexivity|].
  destruct (Category_eqb c k); [reflexivity|exact IH].
Qed.

Lemma classify_step_keys (Vec : Type)
    (cos : list Vec -> list Vec -> outcome (list (list Q)))
    (self : SemanticBrain Vec) (threshold : Q)
    (sentences : list string) (rc : RoutedContent) :
  Dict.keys (fold_left (classify_step cos self threshold) sentences rc)
  = first_seen_from (Dict.keys rc)
      (assigned_categories cos self threshold sentences).
Proof.
  revert rc. induction sentences as [|s ss IH]; intros rc; simpl;
    [reflexivity|].
  rewrite IH. unfold classify_step, assigned_categories. simpl.
  destruct (PyStr.len (PyStr.strip s) <? 10); simpl; [reflexivity|].
  destruct (_classify_sentence cos self s threshold) as [c conf]. simpl.
  unfold first_seen_from at 2. simpl.
  fold (first_seen_from
          (if existsb (Category_eqb c) (Dict.keys rc)
           then Dict.keys rc else Dict.keys rc ++ [c])
          (map (fun s0 => fst (_classify_sentence cos self s0 threshold))
             (filter (fun s0 => negb (PyStr.len (PyStr.strip s0) <? 10)) ss))).
  f_equal. unfold rc_append, rc_adjust. rewrite keys_adjust.
  rewrite existsb_keys.
  destruct (rc_mem c rc) eqn:E; [reflexivity|].
  apply keys_set_absent. intros Hin. apply mem_keys in Hin. congruence.
Qed.

Lemma existsb_eqb_in (c : Category) (l : list Category) :
  existsb (Category_eqb c) l = true <-> In c l.
Proof.
  rewrite existsb_exists. split.
  - intros [x [Hin Heq]]. apply Category_eqb_eq in Heq. now subst.
  - intros Hin. exists c. split; [exact Hin|apply Category_eqb_refl].
Qed.

Lemma first_seen_nodup (l seen : list Category) :
  NoDup seen -> NoDup (first_seen_from seen l).
Proof.
  revert seen. induction l as [|c l IH]; intros seen Hnd; simpl; [exact Hnd|].
  apply IH. destruct (existsb (Category_eqb c) seen) eqn:E; [exact Hnd|].
  apply NoDup_app.
  - exact Hnd.
  - constructor; [intros []|constructor].
  - intros x Hin [<-|[]].
    apply existsb_eqb_in in Hin. congruence.
Qed.

Lemma routed_keys (Vec : Type)
    (cos : list Vec -> list Vec -> outcome (list (list Q)))
    (self : SemanticBrain Vec) (text : string) (threshold : option Q)
    (t0 t1 : Q) (r : ClassifyResult) :
  classify_text cos self text threshold t0 t1 = Ok r ->
  analytics r = _generate_analytics (routed_content r) /\
  (model self = None ->
   Dict.keys (routed_content r) = [Hunch; Wisdom; Nudge; Spell]) /\
  (model self <> None ->
   Dict.keys (routed_content r) =
   first_seen
     (assigned_categories cos self (effective_threshold self threshold)
        (_split_sentences text))).
Proof.
  unfold classify_text. destruct (model self) as [m|]; intros [= <-]; simpl.
  - split; [reflexivity|]. split; [discriminate|]. intros _.
    rewrite keys_map_values. apply classify_step_keys.
  - split; [reflexivity|]. split; [|congruence]. intros _.
    apply fallback_keys.
Qed.

(** The routed content of every result has distinct keys. *)
Lemma routed_keys_nodup (Vec : Type)
    (cos : list Vec -> list Vec -> outcome (list (list Q)))
    (self : SemanticBrain Vec) (text : string) (threshold : option Q)
    (t0 t1 : Q) (r : ClassifyResult) :
  classify_text cos self text threshold t0 t1 = Ok r ->
  NoDup (Dict.keys (routed_content r)).
Proof.
  intros Hr.
  destruct (routed_keys cos self text threshold t0 t1 Hr)
    as (_ & Hfb & Hsim).
  destruct (model self) as [m|] eqn:Em.
  - rewrite Hsim by discriminate. apply first_seen_nodup. constructor.
  - rewrite Hfb by reflexivity.
    repeat constructor; simpl; intuition discriminate.
Qed.

(** C7, as the code has it: the dominant category is the first category of
    maximal count in the key order of [routed_content]; that order is Hunch,
    Wisdom, Nudge, Spell in fallback mode, and the order in which the
    categories were first assigned in similarity mode. *)
Theorem dominant_follows_key_order :
  forall (Vec : Type) (cos : list Vec -> list Vec -> outcome (list (list Q)))
         (self : SemanticBrain Vec) (text : string) (threshold : option Q)
         (t0 t1 : Q) (r : ClassifyResult),
    classify_text cos self text threshold t0 t1 = Ok r ->
    total_sentences (analytics r) <> 0 ->
    (exists k,
        dominant_category (analytics r) = Some k /\
        first_maximal (items_count (routed_content r))
          (Dict.keys (routed_content r)) k) /\
    (model self = None ->
     Dict.keys (routed_content r) = [Hunch; Wisdom; Nudge; Spell]) /\
    (model self <> None ->
     Dict.keys (routed_content r) =
     first_seen
       (assigned_categories cos self (effective_threshold self threshold)
          (_split_sentences text))).
Proof.
  intros Vec cos self text threshold t0 t1 r Hr Htot.
  destruct (routed_keys cos self text threshold t0 t1 Hr)
    as (Ha & Hfb & Hsim).
  split; [|split; assumption].
  pose proof (routed_keys_nodup cos self text threshold t0 t1 Hr) as Hnd.
  rewrite Ha in *. rewrite total_sentences_items in Htot.
  apply dominant_first_maximal; assumption.
Qed.

Lemma dominant_follows_key_order_witness :
  exists r,
    classify_text Exact.cosine_similarity Scenario.brain
      "Picture a talking billboard. Surveys confirm the trend. Nothing here fits at all"
      (Some 0.3%Q) 0%Q 1%Q = Ok r /\
    total_sentences (analytics r) = 3 /\
    Dict.keys (routed_content r) = [Spell; Wisdom; Hunch] /\
    (exists k,
        dominant_category (analytics r) = Some k /\
        first_maximal (items_count (routed_content r))
          (Dict.keys (routed_content r)) k).
Proof.
  destruct (classify_text Exact.cosine_similarity Scenario.brain
      "Picture a talking billboard. Surveys confirm the trend. Nothing here fits at all"
      (Some 0.3%Q) 0%Q 1%Q) as [r|e] eqn:Hr;
    [|revert Hr; vm_compute; discriminate].
  exists r. split; [reflexivity|].
  assert (Hr' := Hr). revert Hr'. vm_compute. intros [= <-].
  split; [reflexivity|]. split; [reflexivity|].
  refine (proj1 (@dominant_follows_key_order _ Exact.cosine_similarity
                   Scenario.brain _ (Some 0.3%Q) 0%Q 1%Q _ Hr _)).
  vm_compute. discriminate.
Defined.

(** C7 fails on the code: the same three sentences, one per category, give
    Spell or Hunch as the dominant category depending on which comes first. *)
Lemma dominant_depends_on_sentence_order :
  exists r1 r2,
    classify_text Exact.cosine_similarity Scenario.brain
      "Picture a talking billboard. Surveys confirm the trend. Nothing here fits at all"
      (Some 0.3%Q) 0%Q 1%Q = Ok r1 /\
    classify_text Exact.cosine_similarity Scenario.brain
      "Nothing here fits at all. Surveys confirm the trend. Picture a talking billboard"
      (Some 0.3%Q) 0%Q 1%Q = Ok r2 /\
    map (items_count (routed_content r1)) [Hunch; Wisdom; Nudge; Spell]
      = [1; 1; 0; 1] /\
    map (items_count (routed_content r2)) [Hunch; Wisdom; Nudge; Spell]
      = [1; 1; 0; 1] /\
    dominant_category (analytics r1) = Some Spell /\
    dominant_category (analytics r2) = Some Hunch.
Proof.
  do 2 eexists. repeat split; vm_compute; reflexivity.
Qed.

(** ** Rounding and the sum of percentages *)

Lemma round_half_even_near (y : Q) :
  (inject_Z (Py.round_half_even y) - y <= 1 # 2)%Q /\
  (y - inject_Z (Py.round_half_even y) <= 1 # 2)%Q.
Proof.
  unfold Py.round_half_even.
  pose proof (Qfloor_le y) as Hlo. pose proof (Qlt_floor y) as Hhi.
  rewrite inject_Z_plus in Hhi. change (inject_Z 1) with 1%Q in Hhi.
  destruct (Qcompare_spec (y - inject_Z (Qfloor y)) (1 # 2)) as [He|Hl|Hg].
  - destruct (Z.even (Qfloor y)).
    + split; lra.
    + rewrite inject_Z_plus. change (inject_Z 1) with 1%Q. split; lra.
  - split; lra.
  - rewrite inject_Z_plus. change (inject_Z 1) with 1%Q. split; lra.
Qed.

Lemma round_1_near (x : Q) :
  (Py.round x 1 - x <= 1 # 20)%Q /\ (x - Py.round x 1 <= 1 # 20)%Q.
Proof.
  unfold Py.round, Py.pow10. change (inject_Z (10 ^ Z.of_nat 1)) with 10%Q.
  destruct (round_half_even_near (x * 10)) as [H1 H2].
  set (z := inject_Z (Py.round_half_even (x * 10))) in *.
  assert (Hd : (z / 10 == z * (1 # 10))%Q) by (field; discriminate).
  rewrite Hd. split; lra.
Qed.

Lemma sum_fold (l : list Q) (a : Q) :
  (fold_left Qplus l a == a + fold_right Qplus 0 l)%Q.
Proof.
  revert a. induction l as [|x l IH]; intros a; simpl.
  - lra.
  - rewrite IH. lra.
Qed.

Lemma sum_cons (x : Q) (l : list Q) :
  (Py.sum (x :: l) == x + Py.sum l)%Q.
Proof.
  unfold Py.sum. simpl. rewrite !sum_fold. lra.
Qed.

Lemma nat_sum_fold (l : list nat) (a : nat) :
  fold_left Nat.add l a = a + fold_right Nat.add 0 l.
Proof.
  revert a. induction l as [|x l IH]; intros a; simpl; [lia|].
  rewrite IH. lia.
Qed.

Lemma Q_of_nat_add (a b : nat) :
  (Q_of_nat (a + b) == Q_of_nat a + Q_of_nat b)%Q.
Proof.
  unfold Q_of_nat. rewrite Nat2Z.inj_add, inject_Z_plus. reflexivity.
Qed.

(** The percentages of a list of counts, against their exact shares. *)
Lemma percentages_near (total_items : nat) (counts : list nat) :
  let shares :=
    (Q_of_nat (fold_right Nat.add 0%nat counts) / Q_of_nat total_items * 100)%Q in
  let rounded :=
    Py.sum (map (fun cnt => percentage_of cnt total_items) counts) in
  (rounded - shares <= (1 # 20) * Q_of_nat (List.length counts))%Q /\
  (shares - rounded <= (1 # 20) * Q_of_nat (List.length counts))%Q.
Proof.
  induction counts as [|c counts IH]; simpl.
  - change (Q_of_nat 0) with 0%Q. change (Py.sum []) with 0%Q.
    assert (H : (0 / Q_of_nat total_items * 100 == 0)%Q)
      by (unfold Qdiv; ring).
    rewrite H. split; lra.
  - simpl in IH. destruct IH as [IH1 IH2].
    rewrite sum_cons.
    change (S (List.length counts)) with (1 + List.length counts).
    rewrite !Q_of_nat_add.
    change (Q_of_nat 1) with 1%Q.
    unfold percentage_of at 1 3.
    destruct (round_1_near (Q_of_nat c / Q_of_nat total_items * 100))
      as [R1 R2].
    assert (Hs : ((Q_of_nat c + Q_of_nat (fold_right Nat.add 0%nat counts))
                  / Q_of_nat total_items * 100
                  == Q_of_nat c / Q_of_nat total_items * 100
                     + Q_of_nat (fold_right Nat.add 0%nat counts)
                       / Q_of_nat total_items * 100)%Q)
      by (unfold Qdiv; ring).
    rewrite Hs. split; lra.
Qed.

Lemma total_items_counts (rc : RoutedContent) :
  total_items_of rc
  = fold_right Nat.add 0 (map (fun entry => List.length (snd entry)) rc).
Proof.
  unfold total_items_of, Dict.values. rewrite nat_sum_fold, map_map.
  reflexivity.
Qed.

Lemma percentages_bound (rc : RoutedContent) :
  NoDup (Dict.keys rc) ->
  total_items_of rc <> 0 ->
  (Qabs (sum_percentages (_generate_analytics rc) - 100)
   <= (1 # 10)
      * Q_of_nat (List.length (distribution_of (_generate_analytics rc))))%Q.
Proof.
  intros Hnd Htot.
  rewrite (generate_analytics_report rc Hnd Htot).
  unfold sum_percentages, distribution_of, Dict.values.
  rewrite !map_map, length_map.
  pose proof (percentages_near (total_items_of rc)
                (map (fun entry => List.length (snd entry)) rc)) as H.
  cbv zeta in H. rewrite <- total_items_counts, map_map, length_map in H.
  destruct H as [H1 H2].
  assert (Hone : (Q_of_nat (total_items_of rc) / Q_of_nat (total_items_of rc)
                  * 100 == 100)%Q).
  { field. unfold Q_of_nat. intros Hz.
    apply Htot. apply Nat2Z.inj. simpl.
    unfold Qeq in Hz. simpl in Hz. lia. }
  rewrite Hone in H1, H2.
  assert (Hn : (0 <= Q_of_nat (List.length rc))%Q).
  { unfold Q_of_nat, Qle. simpl. lia. }
  apply Qabs_Qle_condition.
  change (fun x : Category * list Item =>
            percentage (snd (distribution_entry (total_items_of rc) x)))
    with (fun x : Category * list Item =>
            percentage_of (List.length (snd x)) (total_items_of rc)).
  split; lra.
Qed.

(** C9: for a non-empty batch, the reported percentages sum to 100 up to 0.1
    per reported category. *)
Theorem percentages_sum_to_100 :
  forall rc : RoutedContent,
    NoDup (Dict.keys rc) ->
    total_items_of rc <> 0 ->
    (Qabs (sum_percentages (_generate_analytics rc) - 100)
     <= (1 # 10)
        * Q_of_nat (List.length (distribution_of (_generate_analytics rc))))%Q.
Proof.
  exact percentages_bound.
Qed.

(** The bound holds for the analytics of every classified text. *)
Corollary percentages_of_classified_text (Vec : Type)
    (cos : list Vec -> list Vec -> outcome (list (list Q)))
    (self : SemanticBrain Vec) (text : string) (threshold : option Q)
    (t0 t1 : Q) (r : ClassifyResult) :
  classify_text cos self text threshold t0 t1 = Ok r ->
  total_sentences (analytics r) <> 0 ->
  (Qabs (sum_percentages (analytics r) - 100)
   <= (1 # 10) * Q_of_nat (List.length (distribution_of (analytics r))))%Q.
Proof.
  intros Hr Htot.
  pose proof (routed_keys_nodup cos self text threshold t0 t1 Hr) as Hnd.
  destruct (routed_keys cos self text threshold t0 t1 Hr) as (Ha & _).
  rewrite Ha in *. rewrite total_sentences_items in Htot.
  now apply percentages_bound.
Qed.

Lemma percentages_sum_to_100_witness :
  (Qabs (sum_percentages
           (_generate_analytics
              (routed_content (_fallback_classification Scenario.text)))
         - 100)
   <= (1 # 10) * Q_of_nat 4)%Q.
Proof.
  apply (percentages_sum_to_100
           (routed_content (_fallback_classification Scenario.text))).
  - vm_compute. repeat constructor; simpl; intuition discriminate.
  - vm_compute. discriminate.
Defined.

(** ** Strings: trimming and substrings *)

Lemma chars_str (l : list ascii) : PyStr.chars (PyStr.str l) = l.
Proof. apply list_ascii_of_string_of_list_ascii. Qed.

Lemma str_chars (s : string) : PyStr.str (PyStr.chars s) = s.
Proof. apply string_of_list_ascii_of_string. Qed.

Lemma len_chars (s : string) : PyStr.len s = List.length (PyStr.chars s).
Proof.
  unfold PyStr.len, PyStr.chars. induction s as [|c s IH]; simpl; congruence.
Qed.

Lemma chars_append (s1 s2 : string) :
  PyStr.chars (s1 ++ s2)%string = PyStr.chars s1 ++ PyStr.chars s2.
Proof.
  unfold PyStr.chars. induction s1 as [|c s1 IH]; simpl; congruence.
Qed.

Lemma lstrip_clean (l : list ascii) : clean_head (PyStr.lstrip_chars l).
Proof.
  induction l as [|c l IH]; simpl; [exact I|].
  destruct (PyStr.isspace c) eqn:E; [exact IH|exact E].
Qed.

Lemma lstrip_fixed (l : list ascii) :
  clean_head l -> PyStr.lstrip_chars l = l.
Proof.
  destruct l as [|c l]; simpl; [reflexivity|]. now intros ->.
Qed.

Lemma lstrip_suffix (l : list ascii) :
  exists pre, l = pre ++ PyStr.lstrip_chars l.
Proof.
  induction l as [|c l [pre IH]]; simpl.
  - now exists [].
  - destruct (PyStr.isspace c).
    + exists (c :: pre). simpl. now f_equal.
    + now exists [].
Qed.

Lemma strip_chars_idempotent (l : list ascii) :
  PyStr.strip_chars (PyStr.strip_chars l) = PyStr.strip_chars l.
Proof.
  unfold PyStr.strip_chars.
  pose proof (lstrip_clean l) as Ha.
  set (a := PyStr.lstrip_chars l) in *.
  pose proof (lstrip_clean (rev a)) as Hb.
  destruct (lstrip_suffix (rev a)) as [pre Hpre].
  set (b := PyStr.lstrip_chars (rev a)) in *.
  assert (Hrb : clean_head (rev b)).
  { assert (Hr : a = rev b ++ rev pre).
    { rewrite <- (rev_involutive a), Hpre, rev_app_distr. reflexivity. }
    destruct (rev b) as [|c rb]; [exact I|].
    rewrite Hr in Ha. exact Ha. }
  rewrite (lstrip_fixed _ Hrb), rev_involutive, (lstrip_fixed _ Hb).
  reflexivity.
Qed.

Lemma strip_idempotent (s : string) :
  PyStr.strip (PyStr.strip s) = PyStr.strip s.
Proof.
  unfold PyStr.strip. rewrite chars_str, strip_chars_idempotent. reflexivity.
Qed.

Lemma split_sentences_stripped (text s : string) :
  In s (_split_sentences text) -> PyStr.strip s = s.
Proof.
  rewrite split_sentences_spec, filter_In, in_map_iff.
  intros [[s0 [<- _]] _]. apply strip_idempotent.
Qed.

Lemma starts_with_prefix (p l : list ascii) :
  PyStr.starts_with p l = true <-> exists post, l = p ++ post.
Proof.
  revert l. induction p as [|a p IH]; intros l; simpl.
  - split; [intros _; now exists l|reflexivity].
  - destruct l as [|b l].
    + split; [discriminate|]. intros [post H]. discriminate.
    + rewrite andb_true_iff, Ascii.eqb_eq, IH. split.
      * intros [-> [post ->]]. now exists post.
      * intros [post [= -> ->]]. split; [reflexivity|now exists post].
Qed.

(** [word in s] is substring containment. *)
Lemma contains_chars_substring (p l : list ascii) :
  PyStr.contains_chars p l = true <-> exists pre post, l = pre ++ p ++ post.
Proof.
  induction l as [|c l IH]; simpl.
  - rewrite orb_false_r, starts_with_prefix. split.
    + intros [post H]. now exists [], post.
    + intros [pre [post H]]. destruct pre; [now exists post|discriminate].
  - rewrite orb_true_iff, starts_with_prefix, IH. split.
    + intros [[post H]|[pre [post H]]].
      * now exists [], post.
      * exists (c :: pre), post. simpl. now f_equal.
    + intros [pre [post H]]. destruct pre as [|c' pre].
      * left. now exists post.
      * right. injection H as _ H. now exists pre, post.
Qed.

Lemma contains_substring (word s : string) :
  PyStr.contains word s = true <->
  exists pre post, s = (pre ++ word ++ post)%string.
Proof.
  unfold PyStr.contains. rewrite contains_chars_substring. split.
  - intros [pre [post H]]. exists (PyStr.str pre), (PyStr.str post).
    rewrite <- (str_chars s), H, <- (str_chars (_ ++ _)%string).
    rewrite !chars_append, !chars_str. reflexivity.
  - intros [pre [post ->]]. exists (PyStr.chars pre), (PyStr.chars post).
    now rewrite !chars_append.
Qed.

(** ** The keyword fallback, sentence by sentence *)

Lemma get_adjust (f : list Item -> list Item) (k c : Category)
    (rc : RoutedContent) :
  rc_get c (rc_adjust f k rc)
  = if Category_eqb c k then option_map f (rc_get c rc) else rc_get c rc.
Proof.
  unfold rc_get, rc_adjust.
  induction rc as [|[k0 v0] rc IH]; simpl.
  - now destruct (Category_eqb c k).
  - destruct (Category_eqb k k0) eqn:Ek; simpl.
    + apply Category_eqb_eq in Ek. subst k0.
      destruct (Category_eqb c k); reflexivity.
    + destruct (Category_eqb c k0) eqn:Ec.
      * apply Category_eqb_eq in Ec. subst k0.
        assert (Hck : Category_eqb c k = false).
        { apply Category_eqb_neq. apply Category_eqb_neq in Ek. congruence. }
        now rewrite Hck.
      * exact IH.
Qed.

(** Items are only ever added. *)
Lemma fallback_step_keeps (rc : RoutedContent) (s : string) (c : Category)
    (items : list Item) :
  rc_get c rc = Some items ->
  exists items', rc_get c (fallback_step rc s) = Some (items ++ items').
Proof.
  intros Hget. unfold fallback_step.
  destruct (PyStr.len (PyStr.strip s) <? 10);
    [exists []; now rewrite app_nil_r|].
  destruct (keyword_category (PyStr.lower s)) as [k conf].
  unfold rc_append. rewrite get_adjust, Hget.
  destruct (Category_eqb c k); simpl.
  - eexists. reflexivity.
  - exists []. now rewrite app_nil_r.
Qed.

Lemma fallback_fold_keeps (sentences : list string) (rc : RoutedContent)
    (c : Category) (items : list Item) :
  rc_get c rc = Some items ->
  exists items',
    rc_get c (fold_left fallback_step sentences rc) = Some (items ++ items').
Proof.
  revert rc items. induction sentences as [|s ss IH]; intros rc items Hget;
    simpl.
  - exists []. now rewrite app_nil_r.
  - destruct (fallback_step_keeps rc s c Hget) as [i1 H1].
    destruct (IH _ _ H1) as [i2 H2].
    exists (i1 ++ i2). now rewrite app_assoc.
Qed.

Lemma fallback_fold_routes (sentences : list string) (rc : RoutedContent)
    (s : string) (c : Category) (conf : Q) :
  In s sentences ->
  (PyStr.len (PyStr.strip s) <? 10) = false ->
  keyword_category (PyStr.lower s) = (c, conf) ->
  In c (Dict.keys rc) ->
  exists items,
    rc_get c (fold_left fallback_step sentences rc) = Some items /\
    In (mkItem (PyStr.strip s) conf "keyword_fallback") items.
Proof.
  revert rc. induction sentences as [|s0 ss IH]; intros rc Hin Hlen Hcat Hkey;
    [destruct Hin|].
  simpl. destruct Hin as [->|Hin].
  - destruct (rc_get c rc) as [items|] eqn:Hget;
      [|apply get_none_keys in Hget; contradiction].
    assert (H1 : rc_get c (fallback_step rc s)
                 = Some (items ++ [mkItem (PyStr.strip s) conf
                                     "keyword_fallback"])).
    { unfold fallback_step. rewrite Hlen, Hcat. unfold rc_append.
      rewrite get_adjust, Category_eqb_refl, Hget. reflexivity. }
    destruct (fallback_fold_keeps ss _ c H1) as [i2 H2].
    eexists. split; [exact H2|].
    apply in_or_app. left. apply in_or_app. right. now left.
  - apply IH; try assumption.
    unfold fallback_step.
    destruct (PyStr.len (PyStr.strip s0) <? 10); [exact Hkey|].
    destruct (keyword_category (PyStr.lower s0)) as [k cf].
    unfold rc_append, rc_adjust. rewrite keys_adjust. exact Hkey.
Qed.

Lemma any_word_in_true (words : list string) (s : string) :
  any_word_in words s = true <->
  exists word pre post,
    In word words /\ s = (pre ++ word ++ post)%string.
Proof.
  unfold any_word_in. rewrite existsb_exists. split.
  - intros [w [Hin Hc]]. apply contains_substring in Hc.
    destruct Hc as [pre [post H]]. now exists w, pre, post.
  - intros [w [pre [post [Hin H]]]]. exists w. split; [exact Hin|].
    apply contains_substring. now exists pre, post.
Qed.

(** C10: a sentence kept by the segmenter whose lowercase form contains a
    Nudge keyword as a substring, and no Wisdom keyword as a substring, is
    routed to Nudge with confidence 0.6. *)
Theorem keyword_match_is_substring :
  forall (text s word pre post : string),
    In s (_split_sentences text) ->
    In word nudge_words ->
    PyStr.lower s = (pre ++ word ++ post)%string ->
    (forall w pre' post',
        In w wisdom_words -> PyStr.lower s <> (pre' ++ w ++ post')%string) ->
    exists items,
      rc_get Nudge (routed_content (_fallback_classification text))
        = Some items /\
      In (mkItem s 0.6%Q "keyword_fallback") items.
Proof.
  intros text s word pre post Hin Hword Hsub Hnow.
  pose proof (split_sentences_stripped text s Hin) as Hstrip.
  pose proof (split_sentences_long text s Hin) as Hlong.
  assert (Hlen : (PyStr.len (PyStr.strip s) <? 10) = false).
  { rewrite Hstrip. apply Nat.ltb_ge. lia. }
  assert (Hcat : keyword_category (PyStr.lower s) = (Nudge, 0.6%Q)).
  { unfold keyword_category.
    destruct (any_word_in wisdom_words (PyStr.lower s)) eqn:Ew.
    - apply any_word_in_true in Ew.
      destruct Ew as (w & pre' & post' & Hw & Heq).
      exfalso. exact (Hnow w pre' post' Hw Heq).
    - assert (En : any_word_in nudge_words (PyStr.lower s) = true)
        by (apply any_word_in_true; now exists word, pre, post).
      now rewrite En. }
  unfold _fallback_classification. simpl.
  rewrite <- Hstrip.
  apply fallback_fold_routes; try assumption.
  simpl. tauto.
Qed.

Lemma keyword_match_is_substring_witness :
  exists items,
    rc_get Nudge
      (routed_content
         (_fallback_classification "Sit down over there. Thanks a lot."))
      = Some items /\
    In (mkItem "Sit down over there" 0.6%Q "keyword_fallback") items.
Proof.
  apply (@keyword_match_is_substring "Sit down over there. Thanks a lot."
           "Sit down over there" "do" "sit " "wn over there").
  - vm_compute. now left.
  - vm_compute. tauto.
  - vm_compute. reflexivity.
  - intros w pre' post' Hw Heq.
    assert (Hc : any_word_in wisdom_words (PyStr.lower "Sit down over there")
                 = true)
      by (apply any_word_in_true; now exists w, pre', post').
    revert Hc. vm_compute. discriminate.
Defined.

(** ** The scanner agrees with the search of [re.split] *)

Unset Implicit Arguments.

Lemma mark_not_space (c : ascii) :
  Regex.is_end_mark c = true -> Regex.is_ws c = false.
Proof.
  destruct c as [[] [] [] [] [] [] [] []]; vm_compute; congruence.
Qed.

Lemma span_marks_run (ms r : list ascii) :
  Forall (fun c => Regex.is_end_mark c = true) ms ->
  Regex.span Regex.is_end_mark (ms ++ r)
  = (ms ++ fst (Regex.span Regex.is_end_mark r),
     snd (Regex.span Regex.is_end_mark r)).
Proof.
  induction 1 as [|m ms Hm Hms IH]; simpl.
  - now destruct (Regex.span Regex.is_end_mark r).
  - rewrite Hm, IH. reflexivity.
Qed.

Lemma span_plain (p : ascii -> bool) (c : ascii) (l : list ascii) :
  p c = false -> Regex.span p (c :: l) = ([], c :: l).
Proof. intros H. simpl. now rewrite H. Qed.

(** Inside a run of marks that no white space follows, nothing matches. *)
Lemma match_at_run_plain (ms r : list ascii) :
  Forall (fun c => Regex.is_end_mark c = true) ms ->
  Regex.plain_head r ->
  Regex.match_at (ms ++ r) = None.
Proof.
  intros Hms Hr. unfold Regex.match_at. rewrite (span_marks_run ms r Hms).
  destruct r as [|c r]; simpl.
  - rewrite app_nil_r. now destruct ms.
  - destruct Hr as [Hm Hw]. rewrite Hm. simpl. rewrite app_nil_r.
    destruct ms; [reflexivity|]. now rewrite Hw.
Qed.

(** A run of marks followed by white space matches, up to the end of the
    white space. *)
Lemma match_at_run_space (m : ascii) (ms : list ascii) (c : ascii)
    (l : list ascii) :
  Forall (fun c => Regex.is_end_mark c = true) (m :: ms) ->
  Regex.is_ws c = true ->
  Regex.match_at ((m :: ms) ++ c :: l)
  = Some (snd (Regex.span Regex.is_ws l)).
Proof.
  intros Hms Hc. unfold Regex.match_at. rewrite (span_marks_run _ _ Hms).
  assert (Hm : Regex.is_end_mark c = false).
  { destruct (Regex.is_end_mark c) eqn:E; [|reflexivity].
    apply mark_not_space in E. congruence. }
  rewrite (span_plain _ _ _ Hm). simpl. rewrite Hc.
  now destruct (Regex.span Regex.is_ws l).
Qed.

Lemma search_through_run (ms : list ascii) :
  forall (r acc : list ascii) (fuel : nat),
    Forall (fun c => Regex.is_end_mark c = true) ms ->
    Regex.plain_head r ->
    List.length ms < fuel ->
    Regex.split_search fuel acc (ms ++ r)
    = Regex.split_search (fuel - List.length ms) (rev ms ++ acc) r.
Proof.
  induction ms as [|m ms IH]; intros r acc fuel Hms Hr Hfuel; simpl.
  - now rewrite Nat.sub_0_r.
  - destruct fuel as [|fuel]; [simpl in Hfuel; lia|].
    cbn [Regex.split_search].
    change (m :: ms ++ r) with ((m :: ms) ++ r).
    rewrite (match_at_run_plain _ _ Hms Hr). simpl.
    inversion Hms as [|? ? _ Hms']; subst.
    rewrite (IH r (m :: acc) fuel Hms' Hr) by (simpl in Hfuel; lia).
    now rewrite <- app_assoc.
Qed.

Section ScannerStep.

(** The agreement on every text of length at most [n]. *)
Variable n : nat.
Hypothesis agree_upto :
  forall (l acc : list ascii) (fuel : nat),
    List.length l <= n -> List.length l < fuel ->
    Regex.split_from (Regex.InText acc) l = Regex.split_search fuel acc l.

Lemma scan_spaces (l : list ascii) :
  forall fuel : nat,
    List.length l <= n -> List.length l < fuel ->
    Regex.split_from Regex.InSpaces l
    = Regex.split_search fuel [] (snd (Regex.span Regex.is_ws l)).
Proof.
  induction l as [|c l IH]; intros fuel Hn Hfuel.
  - destruct fuel; [lia|reflexivity].
  - cbn [Regex.split_from Regex.span].
    destruct (Regex.is_ws c) eqn:Ew.
    + rewrite (IH fuel) by (simpl in *; lia).
      now destruct (Regex.span Regex.is_ws l).
    + cbn [snd]. rewrite <- (agree_upto (c :: l) [] fuel Hn Hfuel).
      reflexivity.
Qed.

Lemma scan_marks (l : list ascii) :
  forall (m : ascii) (marks acc : list ascii) (fuel : nat),
    Forall (fun c => Regex.is_end_mark c = true) (m :: marks) ->
    List.length l <= n ->
    List.length (m :: marks) + List.length l < fuel ->
    Regex.split_from (Regex.InMarks acc (m :: marks)) l
    = Regex.split_search fuel acc (rev (m :: marks) ++ l).
Proof.
  induction l as [|c l IH]; intros m marks acc fuel Hms Hn Hfuel.
  - cbn [Regex.split_from].
    rewrite (search_through_run (rev (m :: marks)) [] acc fuel).
    + rewrite rev_involutive.
      destruct (fuel - List.length (rev (m :: marks))) eqn:E;
        [rewrite length_rev in E; simpl in *; lia|reflexivity].
    + now apply Forall_rev.
    + exact I.
    + rewrite length_rev. simpl in *. lia.
  - cbn [Regex.split_from].
    destruct (Regex.is_end_mark c) eqn:Em.
    + rewrite (IH c (m :: marks) acc fuel).
      * cbn [rev]. now rewrite <- app_assoc.
      * now constructor.
      * simpl in *. lia.
      * simpl in *. lia.
    + destruct (Regex.is_ws c) eqn:Ew.
      * destruct fuel as [|fuel]; [lia|].
        assert (Hrev : exists m' ms', rev (m :: marks) = m' :: ms').
        { destruct (rev (m :: marks)) as [|m' ms'] eqn:E.
          - apply (f_equal (@List.length ascii)) in E.
            rewrite length_rev in E. discriminate.
          - now exists m', ms'. }
        destruct Hrev as (m' & ms' & Hrev).
        assert (Hms' : Forall (fun c => Regex.is_end_mark c = true)
                         (m' :: ms'))
          by (rewrite <- Hrev; now apply Forall_rev).
        rewrite Hrev. cbn [Regex.split_search app].
        change (m' :: ms' ++ c :: l) with ((m' :: ms') ++ c :: l).
        rewrite (match_at_run_space m' ms' c l Hms' Ew).
        rewrite (scan_spaces l fuel) by (simpl in *; lia).
        reflexivity.
      * rewrite (search_through_run (rev (m :: marks)) (c :: l) acc fuel).
        -- rewrite rev_involutive, length_rev.
           destruct (fuel - List.length (m :: marks)) as [|fuel'] eqn:E;
             [simpl in *; lia|].
           cbn [Regex.split_search]. unfold Regex.match_at.
           rewrite (span_plain _ _ _ Em).
           apply agree_upto; simpl in *; lia.
        -- now apply Forall_rev.
        -- split; assumption.
        -- rewrite length_rev. simpl in *. lia.
Qed.

End ScannerStep.

(** The scanner computes the split that the search of [re.split] computes,
    for any fuel above the length of the text. *)
Lemma scanner_is_search (n : nat) :
  forall (l acc : list ascii) (fuel : nat),
    List.length l <= n -> List.length l < fuel ->
    Regex.split_from (Regex.InText acc) l = Regex.split_search fuel acc l.
Proof.
  induction n as [|n IH]; intros l acc fuel Hn Hfuel.
  - destruct l; [|simpl in Hn; lia]. destruct fuel; [lia|reflexivity].
  - destruct l as [|c l]; [destruct fuel; [lia|reflexivity]|].
    destruct fuel as [|fuel]; [lia|].
    cbn [Regex.split_from Regex.split_search].
    destruct (Regex.is_end_mark c) eqn:Em.
    + rewrite (scan_marks n IH l c [] acc (S fuel)).
      * reflexivity.
      * now repeat constructor.
      * simpl in Hn. lia.
      * simpl in *. lia.
    + unfold Regex.match_at. rewrite (span_plain _ _ _ Em).
      apply IH; simpl in *; lia.
Qed.

Theorem split_sentence_ends_is_search (text : string) :
  Regex.split_sentence_ends text
  = map PyStr.str
      (Regex.split_search (S (PyStr.len text)) [] (PyStr.chars text)).
Proof.
  unfold Regex.split_sentence_ends. f_equal.
  apply (scanner_is_search (PyStr.len text)); rewrite len_chars; lia.
Qed.

(** * Further properties of the pipeline *)

(** ** The segmenter *)

Lemma sentence_passes_guard (text s : string) :
  In s (_split_sentences text) ->
  (PyStr.len (PyStr.strip s) <? 10) = false.
Proof.
  intros Hin.
  rewrite (split_sentences_stripped text s Hin).
  pose proof (split_sentences_long text s Hin). apply Nat.ltb_ge. lia.
Qed.

(** X1: every sentence returned by the segmenter is already trimmed and has
    more than 10 characters, so the guard [len(sentence.strip()) < 10] of
    the two classification loops never skips one. *)
Theorem split_sentences_trimmed_and_long :
  forall text s : string,
    In s (_split_sentences text) ->
    PyStr.strip s = s /\
    10 < PyStr.len s /\
    (PyStr.len (PyStr.strip s) <? 10) = false.
Proof.
  intros text s Hin.
  pose proof (split_sentences_stripped text s Hin) as Hs.
  pose proof (split_sentences_long text s Hin) as Hl.
  split; [exact Hs|]. split; [exact Hl|].
  rewrite Hs. apply Nat.ltb_ge. lia.
Qed.

Lemma split_sentences_trimmed_and_long_witness :
  PyStr.strip "We should implement this immediately"
    = "We should implement this immediately" /\
  10 < PyStr.len "We should implement this immediately" /\
  (PyStr.len (PyStr.strip "We should implement this immediately") <? 10)
    = false.
Proof.
  apply (split_sentences_trimmed_and_long Scenario.text).
  vm_compute. tauto.
Defined.

Lemma scan_without_match (l : list ascii) :
  (forall c, In c l -> Regex.is_end_mark c = false) \/
  (forall c, In c l -> Regex.is_ws c = false) ->
  (forall acc, Regex.split_from (Regex.InText acc) l = [rev acc ++ l]) /\
  (forall acc marks,
      (forall c, In c l -> Regex.is_ws c = false) ->
      Regex.split_from (Regex.InMarks acc marks) l
      = [rev (marks ++ acc) ++ l]).
Proof.
  induction l as [|c l IH]; intros H.
  - split; intros; simpl; now rewrite app_nil_r.
  - assert (Hl : (forall c, In c l -> Regex.is_end_mark c = false) \/
                 (forall c, In c l -> Regex.is_ws c = false)).
    { destruct H as [H|H]; [left|right]; intros c' Hc'; apply H; now right. }
    destruct (IH Hl) as [IHt IHm]. clear IH.
    assert (Hm : forall acc marks,
               (forall c0, In c0 (c :: l) -> Regex.is_ws c0 = false) ->
               Regex.split_from (Regex.InMarks acc marks) (c :: l)
               = [rev (marks ++ acc) ++ c :: l]).
    { intros acc marks Hws. cbn [Regex.split_from].
      assert (Hwl : forall c0, In c0 l -> Regex.is_ws c0 = false)
        by (intros c0 Hc0; apply Hws; now right).
      destruct (Regex.is_end_mark c).
      - rewrite (IHm acc (c :: marks) Hwl). simpl.
        now rewrite <- app_assoc.
      - rewrite (Hws c) by now left.
        rewrite IHt. simpl. now rewrite <- app_assoc. }
    split; [|exact Hm].
    intros acc. cbn [Regex.split_from].
    destruct (Regex.is_end_mark c) eqn:Em.
    + destruct H as [H|H]; [rewrite (H c) in Em by (now left); discriminate|].
      rewrite (IHm acc [c]) by (intros c0 Hc0; apply H; now right).
      simpl. now rewrite <- app_assoc.
    + rewrite IHt. simpl. now rewrite <- app_assoc.
Qed.

(** X2: a text without any sentence-end mark, or without any white space, is
    one fragment: the segmenter returns the trimmed text if it is longer than
    10 characters and nothing otherwise. *)
Theorem unsplit_text_is_one_sentence :
  forall text : string,
    (forall c, In c (PyStr.chars text) -> Regex.is_end_mark c = false) \/
    (forall c, In c (PyStr.chars text) -> Regex.is_ws c = false) ->
    Regex.split_sentence_ends text = [text] /\
    _split_sentences text =
      if 10 <? PyStr.len (PyStr.strip text) then [PyStr.strip text] else [].
Proof.
  intros text H.
  assert (Hs : Regex.split_sentence_ends text = [text]).
  { unfold Regex.split_sentence_ends.
    rewrite (proj1 (scan_without_match (PyStr.chars text) H) []).
    simpl. now rewrite str_chars. }
  split; [exact Hs|].
  rewrite split_sentences_spec, Hs. simpl.
  now destruct (10 <? PyStr.len (PyStr.strip text)).
Qed.

Lemma unsplit_text_is_one_sentence_witness :
  Regex.split_sentence_ends "see_v1.2_notes!now" = ["see_v1.2_notes!now"] /\
  _split_sentences "see_v1.2_notes!now" = ["see_v1.2_notes!now"].
Proof.
  apply (unsplit_text_is_one_sentence "see_v1.2_notes!now").
  right. intros c Hc. vm_compute in Hc.
  repeat (destruct Hc as [<-|Hc]; [reflexivity|]). destruct Hc.
Defined.

(** ** Where each sentence goes *)

Lemma Category_eqb_sym (a b : Category) :
  Category_eqb a b = Category_eqb b a.
Proof. now destruct a, b. Qed.

Lemma get_set (k c : Category) (v : list Item) (rc : RoutedContent) :
  rc_get c (rc_set k v rc)
  = if Category_eqb c k then Some v else rc_get c rc.
Proof.
  unfold rc_get, rc_set.
  induction rc as [|[k0 v0] rc IH]; simpl.
  - now destruct (Category_eqb c k).
  - destruct (Category_eqb k k0) eqn:Ek; simpl.
    + apply Category_eqb_eq in Ek. subst k0.
      now destruct (Category_eqb c k).
    + destruct (Category_eqb c k0) eqn:Ec; [|exact IH].
      apply Category_eqb_eq in Ec. subst k0.
      rewrite Category_eqb_sym, Ek. reflexivity.
Qed.

Lemma get_map_values (f : list Item -> list Item) (c : Category)
    (rc : RoutedContent) :
  rc_get c (Dict.map_values f rc) = option_map f (rc_get c rc).
Proof.
  unfold rc_get, Dict.map_values.
  induction rc as [|[k0 v0] rc IH]; simpl; [reflexivity|].
  now destruct (Category_eqb c k0).
Qed.

Lemma routed_to_cons (c : Category) (e : Category * Item)
    (es : list (Category * Item)) :
  routed_to c (e :: es)
  = if Category_eqb c (fst e) then snd e :: routed_to c es
    else routed_to c es.
Proof.
  unfold routed_to. simpl. rewrite (Category_eqb_sym (fst e) c).
  now destruct (Category_eqb c (fst e)).
Qed.

Lemma fallback_step_kept (rc : RoutedContent) (s : string) :
  (PyStr.len (PyStr.strip s) <? 10) = false ->
  fallback_step rc s
  = rc_append (fst (fallback_item s)) (snd (fallback_item s)) rc.
Proof.
  intros H. unfold fallback_step, fallback_item. rewrite H.
  now destruct (keyword_category (PyStr.lower s)).
Qed.

Lemma fallback_fold_get (sentences : list string) :
  forall (rc : RoutedContent) (c : Category),
    Forall (fun s => (PyStr.len (PyStr.strip s) <? 10) = false) sentences ->
    rc_get c (fold_left fallback_step sentences rc)
    = option_map
        (fun items => items ++ routed_to c (map fallback_item sentences))
        (rc_get c rc).
Proof.
  induction sentences as [|s ss IH]; intros rc c Hk.
  - simpl. destruct (rc_get c rc); simpl; [|reflexivity].
    unfold routed_to. simpl. now rewrite app_nil_r.
  - inversion Hk as [|? ? Hs Hss]; subst.
    cbn [fold_left map]. rewrite (IH _ c Hss).
    rewrite (fallback_step_kept rc s Hs). unfold rc_append.
    rewrite get_adjust, routed_to_cons.
    destruct (Category_eqb c (fst (fallback_item s)));
      destruct (rc_get c rc); simpl; try reflexivity.
    now rewrite <- app_assoc.
Qed.

Lemma split_sentences_kept (text : string) :
  Forall (fun s => (PyStr.len (PyStr.strip s) <? 10) = false)
    (_split_sentences text).
Proof.
  apply Forall_forall. intros s Hin.
  apply (sentence_passes_guard text s Hin).
Qed.

Lemma fallback_routing (text : string) (c : Category) :
  rc_get c (routed_content (_fallback_classification text))
  = Some (routed_to c (map fallback_item (_split_sentences text))).
Proof.
  unfold _fallback_classification. cbn [routed_content].
  rewrite (fallback_fold_get _ empty_routes c (split_sentences_kept text)).
  now destruct c.
Qed.

(** X3: in fallback mode the list of a category holds exactly the sentences
    of the text whose keyword category it is, one item for each, in the order
    of the text. *)
Theorem fallback_routes_in_text_order :
  forall (text : string) (c : Category),
    rc_get c (routed_content (_fallback_classification text))
    = Some (routed_to c (map fallback_item (_split_sentences text))).
Proof.
  exact fallback_routing.
Qed.

Lemma keyword_category_wisdom (s : string) (word pre post : string) :
  In word wisdom_words ->
  PyStr.lower s = (pre ++ word ++ post)%string ->
  keyword_category (PyStr.lower s) = (Wisdom, 0.7%Q).
Proof.
  intros Hw Hs. unfold keyword_category.
  assert (H : any_word_in wisdom_words (PyStr.lower s) = true)
    by (apply any_word_in_true; now exists word, pre, post).
  now rewrite H.
Qed.

Lemma in_routed_to (c : Category) (item : Item)
    (entries : list (Category * Item)) :
  In (c, item) entries -> In item (routed_to c entries).
Proof.
  intros Hin. unfold routed_to.
  change item with (snd (c, item)). apply in_map.
  apply filter_In. split; [exact Hin|apply Category_eqb_refl].
Qed.

(** X4: the Wisdom keywords have priority: a kept sentence whose lowercase
    form contains a Wisdom keyword is routed to Wisdom with confidence 0.7,
    whatever Nudge or Spell keywords it also contains. *)
Theorem wisdom_keywords_win :
  forall (text s word pre post : string),
    In s (_split_sentences text) ->
    In word wisdom_words ->
    PyStr.lower s = (pre ++ word ++ post)%string ->
    exists items,
      rc_get Wisdom (routed_content (_fallback_classification text))
        = Some items /\
      In (mkItem s 0.7%Q "keyword_fallback") items.
Proof.
  intros text s word pre post Hin Hw Hs.
  eexists. split; [apply fallback_routing|].
  apply in_routed_to.
  apply in_map_iff. exists s. split; [|exact Hin].
  unfold fallback_item.
  rewrite (keyword_category_wisdom s word pre post Hw Hs).
  now rewrite (split_sentences_stripped text s Hin).
Qed.

Lemma wisdom_keywords_win_witness :
  exists items,
    rc_get Wisdom
      (routed_content
         (_fallback_classification
            "We should imagine what the data shows. Thanks a lot."))
      = Some items /\
    In (mkItem "We should imagine what the data shows" 0.7%Q
          "keyword_fallback") items.
Proof.
  apply (wisdom_keywords_win
           "We should imagine what the data shows. Thanks a lot."
           "We should imagine what the data shows" "data"
           "we should imagine what the " " shows").
  - vm_compute. now left.
  - vm_compute. tauto.
  - vm_compute. reflexivity.
Defined.

Lemma append_items_app (o : option (list Item)) (l1 l2 : list Item) :
  append_items (append_items o l1) l2 = append_items o (l1 ++ l2).
Proof.
  destruct l1 as [|x l1]; [reflexivity|].
  destruct l2 as [|y l2]; simpl.
  - now rewrite app_nil_r.
  - destruct o; simpl; now rewrite <- ?app_assoc.
Qed.

Lemma classify_step_get (Vec : Type)
    (cos : list Vec -> list Vec -> outcome (list (list Q)))
    (self : SemanticBrain Vec) (threshold : Q) (rc : RoutedContent)
    (s : string) (c : Category) :
  (PyStr.len (PyStr.strip s) <? 10) = false ->
  rc_get c (classify_step cos self threshold rc s)
  = append_items (rc_get c rc)
      (routed_to c [similarity_item cos self threshold s]).
Proof.
  intros H. unfold classify_step, similarity_item. rewrite H.
  destruct (_classify_sentence cos self s threshold) as [k conf].
  rewrite routed_to_cons. cbn [fst snd]. unfold rc_append.
  rewrite get_adjust.
  destruct (Category_eqb c k) eqn:E.
  - apply Category_eqb_eq in E. subst k.
    unfold rc_mem, Dict.mem. fold (rc_get c rc).
    destruct (rc_get c rc) as [l|] eqn:G.
    + rewrite G. reflexivity.
    + rewrite get_set, Category_eqb_refl. reflexivity.
  - unfold routed_to. simpl.
    destruct (rc_mem k rc); [reflexivity|].
    now rewrite get_set, E.
Qed.

Lemma similarity_fold_get (Vec : Type)
    (cos : list Vec -> list Vec -> outcome (list (list Q)))
    (self : SemanticBrain Vec) (threshold : Q) (sentences : list string) :
  forall (rc : RoutedContent) (c : Category),
    Forall (fun s => (PyStr.len (PyStr.strip s) <? 10) = false) sentences ->
    rc_get c (fold_left (classify_step cos self threshold) sentences rc)
    = append_items (rc_get c rc)
        (routed_to c (map (similarity_item cos self threshold) sentences)).
Proof.
  induction sentences as [|s ss IH]; intros rc c Hk; [reflexivity|].
  inversion Hk as [|? ? Hs Hss]; subst.
  cbn [fold_left map]. rewrite (IH _ c Hss).
  rewrite (classify_step_get Vec cos self threshold rc s c Hs).
  rewrite append_items_app. f_equal.
  rewrite (routed_to_cons c _ (map _ ss)). unfold routed_to at 1. simpl.
  rewrite (Category_eqb_sym _ c).
  now destruct (Category_eqb c _).
Qed.

(** The routed content of similarity mode, key by key. *)
Lemma similarity_routing (Vec : Type)
    (cos : list Vec -> list Vec -> outcome (list (list Q)))
    (self : SemanticBrain Vec) (text : string) (threshold : option Q)
    (t0 t1 : Q) (r : ClassifyResult) (c : Category) :
  model self <> None ->
  classify_text cos self text threshold t0 t1 = Ok r ->
  rc_get c (routed_content r)
  = option_map sort_desc
      (append_items None
         (routed_to c
            (map (similarity_item cos self
                    (effective_threshold self threshold))
               (_split_sentences text)))).
Proof.
  intros Hm. unfold classify_text.
  destruct (model self) as [m|]; [|congruence].
  intros [= <-]. cbn [routed_content].
  rewrite get_map_values.
  now rewrite (similarity_fold_get Vec cos self _ _ [] c
                 (split_sentences_kept text)).
Qed.

(** C5, as the code has it: no threshold is rejected.  For every threshold
    the call returns a result.  In similarity mode a threshold other than 0
    is used as given: the routed content is that of classifying every
    sentence at exactly that value, also when it lies outside (0, 1]; a
    threshold of 0 is replaced by the default of the instance, exactly as a
    missing threshold is.  In fallback mode the threshold plays no part. *)
Theorem threshold_never_rejected :
  forall (Vec : Type) (cos : list Vec -> list Vec -> outcome (list (list Q)))
         (self : SemanticBrain Vec) (input : string) (threshold : option Q)
         (t0 t1 : Q),
    (exists r,
        classify_text cos self input threshold t0 t1 = Ok r /\
        analytics r = _generate_analytics (routed_content r) /\
        (model self = None -> r = _fallback_classification input) /\
        (model self <> None ->
         (forall t, threshold = Some t -> ~ (t == 0)%Q ->
                    forall c, rc_get c (routed_content r)
                              = routed_at cos self t input c) /\
         ((threshold = None \/
           exists t, threshold = Some t /\ (t == 0)%Q) ->
          forall c, rc_get c (routed_content r)
                    = routed_at cos self (confidence_threshold self)
                        input c))) /\
    classify_text cos self input (Some 0%Q) t0 t1 =
    classify_text cos self input None t0 t1.
Proof.
  intros Vec cos self input threshold t0 t1. split; [|reflexivity].
  destruct (classify_text cos self input threshold t0 t1) as [r|e] eqn:Hr;
    [|unfold classify_text in Hr; destruct (model self); discriminate].
  exists r. split; [reflexivity|].
  destruct (routed_keys cos self input threshold t0 t1 Hr) as (Ha & _).
  split; [exact Ha|]. split.
  - intros Hm. unfold classify_text in Hr. rewrite Hm in Hr. congruence.
  - intros Hm. split.
    + intros t -> Hne c.
      rewrite (similarity_routing Vec cos self input (Some t) t0 t1 r c
                 Hm Hr).
      unfold routed_at, effective_threshold.
      destruct (Qeq_bool t 0) eqn:E; [|reflexivity].
      apply Qeq_bool_iff in E. contradiction.
    + intros Hd c.
      rewrite (similarity_routing Vec cos self input threshold t0 t1 r c
                 Hm Hr).
      unfold routed_at, effective_threshold.
      destruct Hd as [->|[t [-> Hz]]]; [reflexivity|].
      apply Qeq_bool_iff in Hz. now rewrite Hz.
Qed.

(** A threshold of 1.5 is used as it stands: a sentence that matches Wisdom
    with similarity 1 falls below it and is filed under Hunch. *)
Lemma threshold_never_rejected_witness :
  exists r,
    classify_text Exact.cosine_similarity Scenario.brain
      "Surveys confirm the trend" (Some 1.5%Q) 0%Q 1%Q = Ok r /\
    (forall c, rc_get c (routed_content r)
               = routed_at Exact.cosine_similarity Scenario.brain 1.5%Q
                   "Surveys confirm the trend" c) /\
    rc_get Hunch (routed_content r)
      = Some [mkItem "Surveys confirm the trend" 1%Q "sentence_transformer"]
    /\ rc_get Wisdom (routed_content r) = None.
Proof.
  destruct (threshold_never_rejected Exact.Vec Exact.cosine_similarity
              Scenario.brain "Surveys confirm the trend" (Some 1.5%Q)
              0%Q 1%Q) as [[r (Hr & _ & _ & Hs)] _].
  assert (Hm : model Scenario.brain <> None) by (vm_compute; discriminate).
  assert (Hne : ~ (1.5 == 0)%Q) by (vm_compute; discriminate).
  pose proof (proj1 (Hs Hm) 1.5%Q eq_refl Hne) as Hat.
  exists r. split; [exact Hr|]. split; [exact Hat|].
  split; rewrite Hat; vm_compute; reflexivity.
Defined.

(** ** The order inside a category *)

Lemma insert_desc_perm (x : Item) (l : list Item) :
  Permutation (insert_desc x l) (x :: l).
Proof.
  induction l as [|y l IH]; simpl; [reflexivity|].
  destruct (Py.Qltb (confidence x) (confidence y)); [|reflexivity].
  rewrite IH. apply perm_swap.
Qed.

Lemma sort_desc_perm (l : list Item) : Permutation (sort_desc l) l.
Proof.
  induction l as [|x l IH]; simpl; [reflexivity|].
  rewrite insert_desc_perm. now constructor.
Qed.

Lemma insert_desc_descending (x : Item) (l : list Item) :
  descending l -> descending (insert_desc x l).
Proof.
  unfold descending. induction l as [|y l IH]; intros Hs; simpl.
  - repeat constructor.
  - inversion Hs as [|? ? Hl Hy]; subst.
    destruct (Py.Qltb (confidence x) (confidence y)) eqn:E.
    + constructor; [now apply IH|].
      apply Forall_forall. intros z Hz.
      apply in_insert_desc in Hz. destruct Hz as [->|Hz].
      * apply Qltb_true in E. now apply Qlt_le_weak.
      * rewrite Forall_forall in Hy. now apply Hy.
    + apply Qltb_false in E. constructor; [exact Hs|].
      constructor; [exact E|].
      apply Forall_forall. intros z Hz.
      rewrite Forall_forall in Hy.
      apply Qle_trans with (confidence y); [now apply Hy|exact E].
Qed.

Lemma sort_desc_descending (l : list Item) : descending (sort_desc l).
Proof.
  induction l as [|x l IH]; simpl; [constructor|].
  now apply insert_desc_descending.
Qed.

Lemma insert_desc_ties (q : Q) (x : Item) (l : list Item) :
  with_confidence q (insert_desc x l) = with_confidence q (x :: l).
Proof.
  unfold with_confidence. induction l as [|y l IH]; [reflexivity|].
  cbn [insert_desc].
  destruct (Py.Qltb (confidence x) (confidence y)) eqn:E; [|reflexivity].
  cbn [filter] in *. rewrite IH.
  destruct (Qeq_bool (confidence x) q) eqn:Ex; [|reflexivity].
  destruct (Qeq_bool (confidence y) q) eqn:Ey; [|reflexivity].
  exfalso. apply Qltb_true in E.
  apply Qeq_bool_iff in Ex. apply Qeq_bool_iff in Ey.
  rewrite Ex, Ey in E. exact (Qlt_irrefl q E).
Qed.

Lemma sort_desc_ties (q : Q) (l : list Item) :
  with_confidence q (sort_desc l) = with_confidence q l.
Proof.
  induction l as [|x l IH]; [reflexivity|].
  cbn [sort_desc fold_right]. fold (sort_desc l).
  rewrite insert_desc_ties. unfold with_confidence in *. cbn [filter].
  now rewrite IH.
Qed.

Lemma constant_descending (q : Q) (l : list Item) :
  (forall x, In x l -> confidence x = q) -> descending l.
Proof.
  unfold descending. induction l as [|x l IH]; intros H; [constructor|].
  constructor.
  - apply IH. intros y Hy. apply H. now right.
  - apply Forall_forall. intros y Hy.
    rewrite (H x) by now left. rewrite (H y) by now right.
    apply Qle_refl.
Qed.

Lemma fallback_item_confidence (s : string) :
  confidence (snd (fallback_item s))
  = fallback_confidence (fst (fallback_item s)).
Proof.
  unfold fallback_item, keyword_category.
  destruct (any_word_in wisdom_words _); [reflexivity|].
  destruct (any_word_in nudge_words _); [reflexivity|].
  destruct (any_word_in spell_words _); reflexivity.
Qed.

Lemma routed_to_in (c : Category) (item : Item)
    (entries : list (Category * Item)) :
  In item (routed_to c entries) -> In (c, item) entries.
Proof.
  unfold routed_to. intros Hin. apply in_map_iff in Hin.
  destruct Hin as [[c' it] [<- Hf]]. apply filter_In in Hf.
  destruct Hf as [Hf Hc]. apply Category_eqb_eq in Hc. simpl in Hc.
  now subst.
Qed.

Lemma fallback_list_constant (text : string) (c : Category) (item : Item) :
  In item (routed_to c (map fallback_item (_split_sentences text))) ->
  confidence item = fallback_confidence c.
Proof.
  intros Hin. apply routed_to_in in Hin. apply in_map_iff in Hin.
  destruct Hin as [s [Hs _]].
  pose proof (fallback_item_confidence s) as H. rewrite Hs in H. exact H.
Qed.

(** X5: in every result of [classify_text], in either mode, the list of each
    category is in non-increasing order of confidence. *)
Theorem category_lists_descend :
  forall (Vec : Type) (cos : list Vec -> list Vec -> outcome (list (list Q)))
         (self : SemanticBrain Vec) (text : string) (threshold : option Q)
         (t0 t1 : Q) (r : ClassifyResult) (c : Category)
         (items : list Item),
    classify_text cos self text threshold t0 t1 = Ok r ->
    rc_get c (routed_content r) = Some items ->
    descending items.
Proof.
  intros Vec cos self text threshold t0 t1 r c items Hr Hget.
  destruct (model self) as [m|] eqn:Em.
  - assert (Hm : model self <> None) by congruence.
    rewrite (similarity_routing Vec cos self text threshold t0 t1 r c Hm Hr)
      in Hget.
    destruct (append_items None _); [|discriminate].
    injection Hget as <-. apply sort_desc_descending.
  - unfold classify_text in Hr. rewrite Em in Hr. injection Hr as <-.
    rewrite fallback_routing in Hget. injection Hget as <-.
    apply (constant_descending (fallback_confidence c)).
    apply fallback_list_constant.
Qed.

Lemma category_lists_descend_witness :
  exists r items,
    classify_text Exact.cosine_similarity Demo.brain Demo.text
      (Some 0.3%Q) 0%Q 1%Q = Ok r /\
    rc_get Wisdom (routed_content r) = Some items /\
    map (fun item => (text item, confidence item)) items
      = [("Surveys confirm the trend", 1%Q);
         ("Audits agree with the surveys", 1%Q);
         ("Our numbers support the plan", (13 # 20)%Q);
         ("Margins may improve next year", (2 # 5)%Q)] /\
    descending items.
Proof.
  destruct (classify_text Exact.cosine_similarity Demo.brain Demo.text
              (Some 0.3%Q) 0%Q 1%Q) as [r|e] eqn:Hr;
    [|revert Hr; vm_compute; discriminate].
  destruct (rc_get Wisdom (routed_content r)) as [items|] eqn:Hget;
    [|revert Hget; revert Hr; vm_compute; intros [= <-]; discriminate].
  exists r, items. split; [reflexivity|]. split; [exact Hget|].
  split.
  - revert Hget. revert Hr. vm_compute. intros [= <-] [= <-]. reflexivity.
  - exact (category_lists_descend _ Exact.cosine_similarity Demo.brain
             Demo.text (Some 0.3%Q) 0%Q 1%Q r Wisdom items Hr Hget).
Defined.

(** X6: in similarity mode a category is a key of the routed content exactly
    when some sentence was classified into it, and its list is then a
    rearrangement of the items of those sentences: none is lost and none is
    added. *)
Theorem similarity_lists_hold_their_sentences :
  forall (Vec : Type) (cos : list Vec -> list Vec -> outcome (list (list Q)))
         (self : SemanticBrain Vec) (text : string) (threshold : option Q)
         (t0 t1 : Q) (r : ClassifyResult) (c : Category),
    model self <> None ->
    classify_text cos self text threshold t0 t1 = Ok r ->
    let entries :=
      map (similarity_item cos self (effective_threshold self threshold))
        (_split_sentences text) in
    (rc_get c (routed_content r) = None <-> routed_to c entries = []) /\
    (forall items,
        rc_get c (routed_content r) = Some items ->
        Permutation items (routed_to c entries)).
Proof.
  intros Vec cos self text threshold t0 t1 r c Hm Hr entries.
  rewrite (similarity_routing Vec cos self text threshold t0 t1 r c Hm Hr).
  fold entries. destruct (routed_to c entries) as [|x l]; simpl.
  - split; [tauto|discriminate].
  - split; [split; discriminate|].
    intros items [= <-]. apply (sort_desc_perm (x :: l)).
Qed.

(** X7: in similarity mode the sort is stable: within a category, the items
    that share a confidence keep the order of their sentences in the text. *)
Theorem equal_confidence_keeps_text_order :
  forall (Vec : Type) (cos : list Vec -> list Vec -> outcome (list (list Q)))
         (self : SemanticBrain Vec) (text : string) (threshold : option Q)
         (t0 t1 : Q) (r : ClassifyResult) (c : Category)
         (items : list Item) (q : Q),
    model self <> None ->
    classify_text cos self text threshold t0 t1 = Ok r ->
    rc_get c (routed_content r) = Some items ->
    with_confidence q items
    = with_confidence q
        (routed_to c
           (map (similarity_item cos self
                   (effective_threshold self threshold))
              (_split_sentences text))).
Proof.
  intros Vec cos self text threshold t0 t1 r c items q Hm Hr Hget.
  rewrite (similarity_routing Vec cos self text threshold t0 t1 r c Hm Hr)
    in Hget.
  destruct (routed_to c _) as [|x l]; [discriminate|].
  simpl in Hget. injection Hget as <-. apply (sort_desc_ties q (x :: l)).
Qed.

Lemma similarity_lists_hold_their_sentences_witness :
  exists r,
    classify_text Exact.cosine_similarity Demo.brain Demo.text
      (Some 0.3%Q) 0%Q 1%Q = Ok r /\
    rc_get Nudge (routed_content r) = None /\
    routed_to Nudge
      (map (similarity_item Exact.cosine_similarity Demo.brain
              (effective_threshold Demo.brain (Some 0.3%Q)))
         (_split_sentences Demo.text)) = [].
Proof.
  destruct (classify_text Exact.cosine_similarity Demo.brain Demo.text
              (Some 0.3%Q) 0%Q 1%Q) as [r|e] eqn:Hr;
    [|revert Hr; vm_compute; discriminate].
  assert (Hm : model Demo.brain <> None) by (vm_compute; discriminate).
  pose proof (similarity_lists_hold_their_sentences _
                Exact.cosine_similarity Demo.brain Demo.text (Some 0.3%Q)
                0%Q 1%Q r Nudge Hm Hr) as [Hiff _].
  assert (Hn : rc_get Nudge (routed_content r) = None)
    by (revert Hr; vm_compute; intros [= <-]; reflexivity).
  exists r. split; [reflexivity|]. split; [exact Hn|].
  apply Hiff. exact Hn.
Defined.

Lemma equal_confidence_keeps_text_order_witness :
  exists r items,
    classify_text Exact.cosine_similarity Demo.brain Demo.text
      (Some 0.3%Q) 0%Q 1%Q = Ok r /\
    rc_get Wisdom (routed_content r) = Some items /\
    map text (with_confidence 1%Q items)
      = ["Surveys confirm the trend"; "Audits agree with the surveys"] /\
    with_confidence 1%Q items
    = with_confidence 1%Q
        (routed_to Wisdom
           (map (similarity_item Exact.cosine_similarity Demo.brain
                   (effective_threshold Demo.brain (Some 0.3%Q)))
              (_split_sentences Demo.text))).
Proof.
  destruct (classify_text Exact.cosine_similarity Demo.brain Demo.text
              (Some 0.3%Q) 0%Q 1%Q) as [r|e] eqn:Hr;
    [|revert Hr; vm_compute; discriminate].
  destruct (rc_get Wisdom (routed_content r)) as [items|] eqn:Hget;
    [|revert Hget; revert Hr; vm_compute; intros [= <-]; discriminate].
  assert (Hm : model Demo.brain <> None) by (vm_compute; discriminate).
  exists r, items. split; [reflexivity|]. split; [exact Hget|].
  split.
  - revert Hget. revert Hr. vm_compute. intros [= <-] [= <-]. reflexivity.
  - exact (equal_confidence_keeps_text_order _ Exact.cosine_similarity
             Demo.brain Demo.text (Some 0.3%Q) 0%Q 1%Q r Wisdom items 1%Q
             Hm Hr Hget).
Defined.

(** ** No sentence is lost *)

Lemma all_items_append (k : Category) (item : Item) (rc : RoutedContent) :
  In k (Dict.keys rc) ->
  Permutation (all_items (rc_append k item rc)) (item :: all_items rc).
Proof.
  unfold all_items, rc_append, rc_adjust, Dict.values, Dict.keys.
  induction rc as [|[k0 v0] rc IH]; intros Hin; [destruct Hin|].
  simpl. destruct (Category_eqb k k0) eqn:E; simpl.
  - rewrite <- app_assoc. simpl.
    symmetry. apply Permutation_middle.
  - apply Category_eqb_neq in E.
    destruct Hin as [Hin|Hin]; [simpl in Hin; congruence|].
    rewrite (IH Hin). symmetry. apply Permutation_middle.
Qed.

Lemma all_items_set_nil (k : Category) (rc : RoutedContent) :
  ~ In k (Dict.keys rc) -> all_items (rc_set k [] rc) = all_items rc.
Proof.
  intros H. unfold all_items, rc_set, Dict.values.
  rewrite (@set_absent (list Item) k [] rc H).
  rewrite map_app, concat_app. simpl. now rewrite app_nil_r.
Qed.

Lemma all_items_sorted (rc : RoutedContent) :
  Permutation (all_items (Dict.map_values sort_desc rc)) (all_items rc).
Proof.
  unfold all_items, Dict.values, Dict.map_values.
  induction rc as [|[k v] rc IH]; simpl; [reflexivity|].
  apply Permutation_app; [apply sort_desc_perm|exact IH].
Qed.

Lemma all_items_fallback (sentences : list string) :
  forall rc : RoutedContent,
    (forall c, In c (Dict.keys rc)) ->
    Forall (fun s => (PyStr.len (PyStr.strip s) <? 10) = false) sentences ->
    Permutation (all_items (fold_left fallback_step sentences rc))
      (all_items rc ++ map (fun s => snd (fallback_item s)) sentences).
Proof.
  induction sentences as [|s ss IH]; intros rc Hkeys Hk.
  - simpl. now rewrite app_nil_r.
  - inversion Hk as [|? ? Hs Hss]; subst. cbn [fold_left map].
    rewrite IH; [|intros c|exact Hss].
    + rewrite (fallback_step_kept rc s Hs).
      rewrite (all_items_append _ _ rc (Hkeys _)).
      apply Permutation_cons_app. reflexivity.
    + rewrite (fallback_step_kept rc s Hs). unfold rc_append, rc_adjust.
      rewrite keys_adjust. apply Hkeys.
Qed.

Lemma all_items_similarity (Vec : Type)
    (cos : list Vec -> list Vec -> outcome (list (list Q)))
    (self : SemanticBrain Vec) (threshold : Q) (sentences : list string) :
  forall rc : RoutedContent,
    Forall (fun s => (PyStr.len (PyStr.strip s) <? 10) = false) sentences ->
    Permutation
      (all_items (fold_left (classify_step cos self threshold) sentences rc))
      (all_items rc
       ++ map (fun s => snd (similarity_item cos self threshold s))
            sentences).
Proof.
  induction sentences as [|s ss IH]; intros rc Hk.
  - simpl. now rewrite app_nil_r.
  - inversion Hk as [|? ? Hs Hss]; subst. cbn [fold_left map].
    rewrite (IH _ Hss).
    assert (Hstep : Permutation
                      (all_items (classify_step cos self threshold rc s))
                      (snd (similarity_item cos self threshold s)
                       :: all_items rc)).
    { unfold classify_step, similarity_item. rewrite Hs.
      destruct (_classify_sentence cos self s threshold) as [k conf].
      cbn [snd].
      destruct (rc_mem k rc) eqn:E.
      - apply all_items_append. now apply mem_keys.
      - assert (Hn : ~ In k (Dict.keys rc)).
        { intros Hin. apply mem_keys in Hin. congruence. }
        rewrite all_items_append.
        + now rewrite (all_items_set_nil k rc Hn).
        + unfold rc_set. rewrite (@keys_set_absent (list Item) k [] rc Hn).
          apply in_or_app. right. now left. }
    rewrite Hstep. simpl. apply Permutation_cons_app. reflexivity.
Qed.

Lemma strip_sentences (input : string) (f : string -> Item) :
  (forall s, text (f s) = PyStr.strip s) ->
  map (fun s => text (f s)) (_split_sentences input)
  = _split_sentences input.
Proof.
  intros Hf. rewrite <- (map_id (_split_sentences input)) at 2.
  apply map_ext_in. intros s Hin. rewrite Hf.
  apply (split_sentences_stripped input s Hin).
Qed.

Lemma routed_texts (Vec : Type)
    (cos : list Vec -> list Vec -> outcome (list (list Q)))
    (self : SemanticBrain Vec) (input : string) (threshold : option Q)
    (t0 t1 : Q) (r : ClassifyResult) :
  classify_text cos self input threshold t0 t1 = Ok r ->
  Permutation (map text (all_items (routed_content r)))
    (_split_sentences input).
Proof.
  unfold classify_text. destruct (model self) as [m|]; intros [= <-];
    cbn [routed_content].
  - rewrite all_items_sorted.
    rewrite (all_items_similarity Vec cos self _ _ []
               (split_sentences_kept input)).
    simpl. rewrite map_map.
    rewrite (strip_sentences input
               (fun s => snd (similarity_item cos self
                                (effective_threshold self threshold) s))).
    + reflexivity.
    + intros s. unfold similarity_item.
      now destruct (_classify_sentence cos self s _).
  - unfold _fallback_classification. cbn [routed_content].
    rewrite (all_items_fallback _ empty_routes).
    + simpl. rewrite map_map.
      rewrite (strip_sentences input (fun s => snd (fallback_item s))).
      * reflexivity.
      * intros s. unfold fallback_item.
        now destruct (keyword_category (PyStr.lower s)).
    + intros c. destruct c; simpl; tauto.
    + apply split_sentences_kept.
Qed.

(** X8: across the categories of a result, the texts of the items are the
    sentences of the segmenter, each exactly once: classification neither
    drops nor repeats a sentence, in either mode. *)
Theorem every_sentence_routed_once :
  forall (Vec : Type) (cos : list Vec -> list Vec -> outcome (list (list Q)))
         (self : SemanticBrain Vec) (input : string) (threshold : option Q)
         (t0 t1 : Q) (r : ClassifyResult),
    classify_text cos self input threshold t0 t1 = Ok r ->
    Permutation (map text (all_items (routed_content r)))
      (_split_sentences input).
Proof.
  exact routed_texts.
Qed.

Lemma every_sentence_routed_once_witness :
  exists r,
    classify_text Exact.cosine_similarity Demo.brain Demo.text
      (Some 0.3%Q) 0%Q 1%Q = Ok r /\
    map text (all_items (routed_content r))
      = ["Surveys confirm the trend"; "Audits agree with the surveys";
         "Our numbers support the plan"; "Margins may improve next year";
         "Picture a talking billboard"] /\
    Permutation (map text (all_items (routed_content r)))
      (_split_sentences Demo.text).
Proof.
  destruct (classify_text Exact.cosine_similarity Demo.brain Demo.text
              (Some 0.3%Q) 0%Q 1%Q) as [r|e] eqn:Hr;
    [|revert Hr; vm_compute; discriminate].
  exists r. split; [reflexivity|]. split.
  - revert Hr. vm_compute. intros [= <-]. reflexivity.
  - exact (every_sentence_routed_once _ Exact.cosine_similarity Demo.brain
             Demo.text (Some 0.3%Q) 0%Q 1%Q r Hr).
Defined.

Lemma total_items_all (rc : RoutedContent) :
  total_items_of rc = List.length (all_items rc).
Proof.
  rewrite total_items_counts. unfold all_items, Dict.values.
  induction rc as [|[k v] rc IH]; simpl; [reflexivity|].
  rewrite length_app. now rewrite IH.
Qed.

Lemma sentence_count (Vec : Type)
    (cos : list Vec -> list Vec -> outcome (list (list Q)))
    (self : SemanticBrain Vec) (input : string) (threshold : option Q)
    (t0 t1 : Q) (r : ClassifyResult) :
  classify_text cos self input threshold t0 t1 = Ok r ->
  total_sentences (analytics r) = List.length (_split_sentences input).
Proof.
  intros Hr.
  destruct (routed_keys cos self input threshold t0 t1 Hr) as (Ha & _).
  rewrite Ha, total_sentences_items, total_items_all.
  rewrite <- (length_map text).
  apply Permutation_length. exact (routed_texts Vec cos self input threshold t0 t1 r Hr).
Qed.

(** X9: [total_sentences] is the number of sentences the segmenter returns,
    and the analytics are the "No content to analyze" answer exactly when
    that number is zero. *)
Theorem total_sentences_counts_segments :
  forall (Vec : Type) (cos : list Vec -> list Vec -> outcome (list (list Q)))
         (self : SemanticBrain Vec) (input : string) (threshold : option Q)
         (t0 t1 : Q) (r : ClassifyResult),
    classify_text cos self input threshold t0 t1 = Ok r ->
    total_sentences (analytics r) = List.length (_split_sentences input) /\
    (analytics r = NoContent "No content to analyze" 0 <->
     _split_sentences input = []).
Proof.
  intros Vec cos self input threshold t0 t1 r Hr.
  pose proof (sentence_count Vec cos self input threshold t0 t1 r Hr) as Hn.
  split; [exact Hn|].
  destruct (routed_keys cos self input threshold t0 t1 Hr) as (Ha & _).
  split.
  - intros H. rewrite H in Hn. simpl in Hn.
    destruct (_split_sentences input); [reflexivity|discriminate].
  - intros H. rewrite H in Hn. simpl in Hn.
    rewrite Ha in *. rewrite total_sentences_items in Hn.
    unfold _generate_analytics. now rewrite Hn.
Qed.

Lemma total_sentences_counts_segments_witness :
  exists r,
    classify_text Exact.cosine_similarity Demo.brain "Too short. Hi!"
      (Some 0.3%Q) 0%Q 1%Q = Ok r /\
    _split_sentences "Too short. Hi!" = [] /\
    total_sentences (analytics r) = 0 /\
    analytics r = NoContent "No content to analyze" 0.
Proof.
  destruct (classify_text Exact.cosine_similarity Demo.brain "Too short. Hi!"
              (Some 0.3%Q) 0%Q 1%Q) as [r|e] eqn:Hr;
    [|revert Hr; vm_compute; discriminate].
  pose proof (total_sentences_counts_segments _ Exact.cosine_similarity
                Demo.brain "Too short. Hi!" (Some 0.3%Q) 0%Q 1%Q r Hr)
    as [Hn Hiff].
  assert (Hs : _split_sentences "Too short. Hi!" = [])
    by (vm_compute; reflexivity).
  exists r. split; [reflexivity|]. split; [exact Hs|].
  split; [rewrite Hn, Hs; reflexivity|]. apply Hiff. exact Hs.
Defined.

(** ** Rounding is monotone *)

Lemma round_half_even_bounds (y : Q) :
  (Qfloor y <= Py.round_half_even y <= Qfloor y + 1)%Z.
Proof.
  unfold Py.round_half_even.
  destruct (y - inject_Z (Qfloor y) ?= 1 # 2)%Q;
    [destruct (Z.even (Qfloor y))| |]; lia.
Qed.

Lemma round_half_even_monotone (x y : Q) :
  (x <= y)%Q -> (Py.round_half_even x <= Py.round_half_even y)%Z.
Proof.
  intros Hxy.
  pose proof (Qfloor_resp_le x y Hxy) as Hf.
  pose proof (round_half_even_bounds x) as Bx.
  pose proof (round_half_even_bounds y) as By.
  destruct (Z.eq_dec (Qfloor x) (Qfloor y)) as [E|E]; [|lia].
  unfold Py.round_half_even. rewrite <- E.
  destruct (Qcompare_spec (x - inject_Z (Qfloor x)) (1 # 2)) as [Hx|Hx|Hx];
    destruct (Qcompare_spec (y - inject_Z (Qfloor x)) (1 # 2)) as [Hy|Hy|Hy];
    try (destruct (Z.even (Qfloor x))); try lia; exfalso; lra.
Qed.

Lemma pow10_pos (n : nat) : (0 < Py.pow10 n)%Q.
Proof.
  unfold Py.pow10. change 0%Q with (inject_Z 0). rewrite <- Zlt_Qlt.
  apply Z.pow_pos_nonneg; lia.
Qed.

Lemma round_monotone (x y : Q) (n : nat) :
  (x <= y)%Q -> (Py.round x n <= Py.round y n)%Q.
Proof.
  intros Hxy. unfold Py.round.
  pose proof (pow10_pos n) as Hp.
  apply Qmult_le_compat_r.
  - rewrite <- Zle_Qle. apply round_half_even_monotone.
    apply Qmult_le_compat_r; [exact Hxy|now apply Qlt_le_weak].
  - apply Qlt_le_weak. now apply Qinv_lt_0_compat.
Qed.

Lemma round_integer (z : Z) (n : nat) : (Py.round (inject_Z z) n == inject_Z z)%Q.
Proof.
  unfold Py.round, Py.pow10.
  assert (Hp : ~ (inject_Z (10 ^ Z.of_nat n) == 0)%Q).
  { pose proof (pow10_pos n) as Hp. unfold Py.pow10 in Hp.
    intros H. rewrite H in Hp. exact (Qlt_irrefl 0 Hp). }
  assert (Hr : Py.round_half_even (inject_Z z * inject_Z (10 ^ Z.of_nat n))
               = (z * 10 ^ Z.of_nat n)%Z).
  { rewrite <- inject_Z_mult. unfold Py.round_half_even.
    rewrite Qfloor_Z.
    assert (H0 : (inject_Z (z * 10 ^ Z.of_nat n)
                  - inject_Z (z * 10 ^ Z.of_nat n) == 0)%Q) by ring.
    rewrite H0. reflexivity. }
  rewrite Hr, inject_Z_mult. field. exact Hp.
Qed.

(** ** Counts and percentages *)

Lemma distribution_report (rc : RoutedContent) :
  NoDup (Dict.keys rc) ->
  total_items_of rc <> 0 ->
  distribution_of (_generate_analytics rc)
  = map (distribution_entry (total_items_of rc)) rc.
Proof.
  intros Hnd E. now rewrite (generate_analytics_report rc Hnd E).
Qed.

Lemma filter_length_le (A : Type) (f : A -> bool) (l : list A) :
  List.length (filter f l) <= List.length l.
Proof.
  induction l as [|x l IH]; simpl; [lia|].
  destruct (f x); simpl; lia.
Qed.

(** X11: in the report of a non-empty batch the distribution has the keys of
    the routed content in the same order, the count of a category is the
    length of its list, the counts add up to [total_sentences], and
    [high_confidence_items] does not exceed that total. *)
Theorem report_counts_agree :
  forall rc : RoutedContent,
    NoDup (Dict.keys rc) ->
    total_items_of rc <> 0 ->
    Dict.keys (distribution_of (_generate_analytics rc)) = Dict.keys rc /\
    (forall c,
        count_in (distribution_of (_generate_analytics rc)) c
        = items_count rc c) /\
    fold_right Nat.add 0
      (map count (Dict.values (distribution_of (_generate_analytics rc))))
    = total_sentences (_generate_analytics rc) /\
    exists high,
      high_confidence_items (_generate_analytics rc) = Some high /\
      high <= total_sentences (_generate_analytics rc).
Proof.
  intros rc Hnd E.
  rewrite (distribution_report rc Hnd E), total_sentences_items.
  split; [apply keys_distribution|].
  split; [intros c; apply count_in_distribution|].
  split.
  - rewrite total_items_counts. unfold Dict.values. rewrite !map_map.
    reflexivity.
  - rewrite (generate_analytics_report rc Hnd E). simpl.
    eexists. split; [reflexivity|].
    rewrite total_items_all. apply filter_length_le.
Qed.

Lemma report_counts_agree_witness :
  Dict.keys (distribution_of (_generate_analytics Demo.batch))
    = [Wisdom; Spell] /\
  map count (Dict.values (distribution_of (_generate_analytics Demo.batch)))
    = [3; 1] /\
  total_sentences (_generate_analytics Demo.batch) = 4 /\
  high_confidence_items (_generate_analytics Demo.batch) = Some 2 /\
  fold_right Nat.add 0
    (map count
       (Dict.values (distribution_of (_generate_analytics Demo.batch))))
  = total_sentences (_generate_analytics Demo.batch).
Proof.
  assert (Hnd : NoDup (Dict.keys Demo.batch))
    by (repeat constructor; simpl; intuition discriminate).
  assert (E : total_items_of Demo.batch <> 0) by (vm_compute; discriminate).
  destruct (report_counts_agree Demo.batch Hnd E) as (_ & _ & Hsum & _).
  split; [vm_compute; reflexivity|]. split; [vm_compute; reflexivity|].
  split; [vm_compute; reflexivity|]. split; [vm_compute; reflexivity|].
  exact Hsum.
Defined.

Lemma Q_of_nat_le (a b : nat) : a <= b -> (Q_of_nat a <= Q_of_nat b)%Q.
Proof.
  intros H. unfold Q_of_nat. rewrite <- Zle_Qle. lia.
Qed.

Lemma in_le_total (rc : RoutedContent) (c : Category) (items : list Item) :
  In (c, items) rc -> List.length items <= total_items_of rc.
Proof.
  rewrite total_items_counts.
  induction rc as [|[k v] rc IH]; intros Hin; [destruct Hin|].
  simpl. destruct Hin as [[= <- <-]|Hin]; [lia|].
  specialize (IH Hin). lia.
Qed.

Lemma percentage_of_range (cnt total : nat) :
  cnt <= total -> total <> 0 ->
  (0 <= percentage_of cnt total)%Q /\ (percentage_of cnt total <= 100)%Q.
Proof.
  intros Hle Hpos. unfold percentage_of.
  assert (Ht : (0 < Q_of_nat total)%Q).
  { unfold Q_of_nat, Qlt. simpl. lia. }
  assert (Hc : (0 <= Q_of_nat cnt)%Q).
  { unfold Q_of_nat, Qle. simpl. lia. }
  pose proof (Q_of_nat_le cnt total Hle) as Hct.
  assert (H0 : (0 <= Q_of_nat cnt / Q_of_nat total)%Q).
  { apply Qle_shift_div_l; [exact Ht|]. lra. }
  assert (H1 : (Q_of_nat cnt / Q_of_nat total <= 1)%Q).
  { apply Qle_shift_div_r; [exact Ht|]. lra. }
  split.
  - apply Qle_trans with (Py.round (inject_Z 0) 1).
    + rewrite (round_integer 0 1). apply Qle_refl.
    + apply round_monotone. change (inject_Z 0) with 0%Q. lra.
  - apply Qle_trans with (Py.round (inject_Z 100) 1).
    + apply round_monotone. change (inject_Z 100) with 100%Q. lra.
    + rewrite (round_integer 100 1). apply Qle_refl.
Qed.

(** X12: every percentage of a report lies between 0 and 100. *)
Theorem percentages_in_range :
  forall (rc : RoutedContent) (c : Category) (d : Distribution),
    NoDup (Dict.keys rc) ->
    In (c, d) (distribution_of (_generate_analytics rc)) ->
    (0 <= percentage d)%Q /\ (percentage d <= 100)%Q.
Proof.
  intros rc c d Hnd Hin.
  destruct (Nat.eq_dec (total_items_of rc) 0) as [E|E].
  - unfold _generate_analytics in Hin. rewrite E in Hin. destruct Hin.
  - rewrite (distribution_report rc Hnd E) in Hin.
    apply in_map_iff in Hin. destruct Hin as [[k items] [[= <- <-] Hin]].
    simpl. apply percentage_of_range; [|exact E].
    exact (in_le_total rc k items Hin).
Qed.

Lemma percentages_in_range_witness :
  distribution_of (_generate_analytics Demo.batch)
  = [(Wisdom, mkDistribution 3 75.0%Q); (Spell, mkDistribution 1 25.0%Q)] /\
  (0 <= 75.0)%Q /\ (75.0 <= 100)%Q.
Proof.
  split; [vm_compute; reflexivity|].
  apply (percentages_in_range Demo.batch Wisdom (mkDistribution 3 75.0%Q)).
  - repeat constructor; simpl; intuition discriminate.
  - vm_compute. now left.
Defined.

(** ** Fallback mode never reports high confidence *)

Lemma filter_nothing (A : Type) (f : A -> bool) (l : list A) :
  (forall x, In x l -> f x = false) -> filter f l = [].
Proof.
  induction l as [|x l IH]; intros H; simpl; [reflexivity|].
  rewrite (H x) by now left. apply IH. intros y Hy. apply H. now right.
Qed.

Lemma fallback_confidence_at_most_07 (input : string) :
  every_confidence (fun q => (q <= 0.7)%Q)
    (routed_content (_fallback_classification input)).
Proof.
  unfold _fallback_classification. cbn [routed_content].
  apply all_conf_fold.
  - intros rc s. apply all_conf_fallback_step; discriminate.
  - intros c items item Hin Hin'. simpl in Hin.
    destruct Hin as [[= <- <-]|[[= <- <-]|[[= <- <-]|[[= <- <-]|[]]]]];
      destruct Hin'.
Qed.

Lemma fallback_total (input : string) :
  total_items_of (routed_content (_fallback_classification input))
  = List.length (_split_sentences input).
Proof.
  rewrite total_items_all. unfold _fallback_classification.
  cbn [routed_content].
  rewrite (Permutation_length
             (all_items_fallback (_split_sentences input) empty_routes
                (fun c => ltac:(destruct c; simpl; tauto))
                (split_sentences_kept input))).
  simpl. apply length_map.
Qed.

(** X13: the keyword fallback never reports a high-confidence item: its
    largest confidence is 0.7 and the test is [confidence > 0.7], so
    [high_confidence_items] is 0 whenever there is a sentence (and absent
    when there is none). *)
Theorem fallback_has_no_high_confidence :
  forall input : string,
    high_confidence_items (analytics (_fallback_classification input))
    = match _split_sentences input with
      | [] => None
      | _ :: _ => Some 0
      end.
Proof.
  intros input.
  pose proof (fallback_total input) as Ht.
  pose proof (fallback_confidence_at_most_07 input) as Hc.
  unfold _fallback_classification in *. cbn [routed_content analytics] in *.
  set (rc := fold_left fallback_step (_split_sentences input) empty_routes)
    in *.
  destruct (_split_sentences input) as [|s ss] eqn:Es.
  - unfold _generate_analytics. simpl in Ht. now rewrite Ht.
  - assert (E : total_items_of rc <> 0) by (rewrite Ht; discriminate).
    assert (Hnd : NoDup (Dict.keys rc)).
    { unfold rc. rewrite fallback_keys.
      repeat constructor; simpl; intuition discriminate. }
    rewrite (generate_analytics_report rc Hnd E). simpl.
    rewrite filter_nothing; [reflexivity|].
    intros item Hin. apply Qltb_false.
    unfold Dict.values in Hin. apply in_concat in Hin.
    destruct Hin as [items [Hitems Hin]].
    apply in_map_iff in Hitems. destruct Hitems as [[c its] [<- Hc']].
    exact (Hc c its item Hc' Hin).
Qed.

(** X14: a kept sentence whose lowercase form contains none of the keywords
    of the three lists is routed to Hunch with confidence 0.4. *)
Theorem no_keyword_is_hunch :
  forall (input s : string),
    In s (_split_sentences input) ->
    (forall w pre post,
        In w (wisdom_words ++ nudge_words ++ spell_words) ->
        PyStr.lower s <> (pre ++ w ++ post)%string) ->
    exists items,
      rc_get Hunch (routed_content (_fallback_classification input))
        = Some items /\
      In (mkItem s 0.4%Q "keyword_fallback") items.
Proof.
  intros input s Hin Hnone.
  assert (Hno : forall words,
             (forall w, In w words ->
                        In w (wisdom_words ++ nudge_words ++ spell_words)) ->
             any_word_in words (PyStr.lower s) = false).
  { intros words Hsub.
    destruct (any_word_in words (PyStr.lower s)) eqn:E; [|reflexivity].
    apply any_word_in_true in E. destruct E as (w & pre & post & Hw & Heq).
    exfalso. exact (Hnone w pre post (Hsub w Hw) Heq). }
  eexists. split; [apply fallback_routing|].
  apply in_routed_to. apply in_map_iff. exists s. split; [|exact Hin].
  unfold fallback_item, keyword_category.
  rewrite (Hno wisdom_words), (Hno nudge_words), (Hno spell_words).
  - now rewrite (split_sentences_stripped input s Hin).
  - intros w Hw. apply in_or_app. right. apply in_or_app. now right.
  - intros w Hw. apply in_or_app. right. apply in_or_app. now left.
  - intros w Hw. apply in_or_app. now left.
Qed.

Lemma no_keyword_is_hunch_witness :
  exists items,
    rc_get Hunch
      (routed_content
         (_fallback_classification "Thanks a lot for coming. See you."))
      = Some items /\
    In (mkItem "Thanks a lot for coming" 0.4%Q "keyword_fallback") items.
Proof.
  apply (no_keyword_is_hunch "Thanks a lot for coming. See you."
           "Thanks a lot for coming").
  - vm_compute. now left.
  - intros w pre post Hw Heq.
    assert (Hc : any_word_in (wisdom_words ++ nudge_words ++ spell_words)
                   (PyStr.lower "Thanks a lot for coming") = true)
      by (apply any_word_in_true; now exists w, pre, post).
    revert Hc. vm_compute. discriminate.
Defined.

(** ** Start-up *)

(** X15: [initialize] answers true exactly when the ML libraries are
    present, the model loads, and the model returns at least four vectors
    for the anchor texts; the brain then holds the model and the first four
    vectors as the anchors of Hunch, Wisdom, Nudge and Spell, in this
    order, with its threshold and model name unchanged. *)
Theorem initialize_succeeds_iff :
  forall (Vec : Type) (HAS_ML : bool)
         (load : string -> outcome (SentenceTransformer Vec))
         (self b : SemanticBrain Vec),
    initialize HAS_ML load self = (true, b) <->
    HAS_ML = true /\
    exists m e0 e1 e2 e3 rest,
      load (model_name self) = Ok m /\
      encode m (Dict.values anchors) = Ok (e0 :: e1 :: e2 :: e3 :: rest) /\
      b = mkBrain (Some m)
            [(Hunch, e0); (Wisdom, e1); (Nudge, e2); (Spell, e3)]
            (confidence_threshold self) (model_name self).
Proof.
  intros Vec HAS_ML load self b. unfold initialize. split.
  - destruct HAS_ML; simpl; [|discriminate].
    destruct (load (model_name self)) as [m|e]; [|discriminate].
    unfold _load_anchor_embeddings. cbn [model].
    destruct (encode m (Dict.values anchors)) as [embs|e] eqn:Ee;
      simpl; [|discriminate].
    destruct embs as [|e0 [|e1 [|e2 [|e3 rest]]]]; simpl; try discriminate.
    intros [= <-]. split; [reflexivity|].
    exists m, e0, e1, e2, e3, rest. auto.
  - intros [-> (m & e0 & e1 & e2 & e3 & rest & Hl & He & ->)]. simpl.
    rewrite Hl. unfold _load_anchor_embeddings. cbn [model].
    rewrite He. reflexivity.
Qed.

Lemma initialize_succeeds_iff_witness :
  initialize true Scenario.loader (new_brain Exact.Vec)
  = (true,
     mkBrain (Some (Exact.table_model Scenario.anchor_vecs Scenario.table))
       [(Hunch, [1; 0; 0; 0; 0]%Q); (Wisdom, [0; 1; 0; 0; 0]%Q);
        (Nudge, [0; 0; 1; 0; 0]%Q); (Spell, [0; 0; 0; 1; 0]%Q)]
       0.3%Q "all-MiniLM-L6-v2").
Proof.
  apply (proj2 (initialize_succeeds_iff Exact.Vec true Scenario.loader
                  (new_brain Exact.Vec) _)).
  split; [reflexivity|].
  exists (Exact.table_model Scenario.anchor_vecs Scenario.table),
    [1; 0; 0; 0; 0]%Q, [0; 1; 0; 0; 0]%Q, [0; 0; 1; 0; 0]%Q,
    [0; 0; 0; 1; 0]%Q, [].
  repeat split; reflexivity.
Defined.

Lemma load_anchors_fails (Vec : Type) (m : SentenceTransformer Vec)
    (anchs : Dict.t Category Vec) (q : Q) (name : string) :
  (forall embs,
      encode m (Dict.values anchors) = Ok embs -> List.length embs < 4) ->
  exists e, _load_anchor_embeddings (mkBrain (Some m) anchs q name) = Raise e.
Proof.
  intros H. unfold _load_anchor_embeddings. cbn [model].
  destruct (encode m (Dict.values anchors)) as [embs|e] eqn:Ee; simpl;
    [|now exists e].
  specialize (H embs eq_refl).
  destruct embs as [|e0 [|e1 [|e2 [|e3 rest]]]]; simpl;
    try (eexists; reflexivity).
  simpl in H. lia.
Qed.

Lemma unanchored_sentence (Vec : Type)
    (cos : list Vec -> list Vec -> outcome (list (list Q)))
    (self : SemanticBrain Vec) (s : string) (threshold : Q) :
  anchor_embeddings self = [] ->
  _classify_sentence cos self s threshold = (Hunch, 0.5%Q).
Proof.
  intros Ha. unfold _classify_sentence. rewrite Ha.
  now destruct (model self).
Qed.

(** X16: when the model loads but the anchors do not (its [encode] raises on
    the anchor texts or returns fewer than four vectors), [initialize]
    answers false yet leaves the model in place with no anchors.  From then
    on [classify_text] does not use the keyword fallback: every sentence is
    filed under Hunch with confidence 0.5 and the method tag
    [sentence_transformer]. *)
Theorem failed_anchor_load_leaves_model :
  forall (Vec : Type) (cos : list Vec -> list Vec -> outcome (list (list Q)))
         (load : string -> outcome (SentenceTransformer Vec))
         (m : SentenceTransformer Vec)
         (input : string) (threshold : option Q) (t0 t1 : Q),
    load "all-MiniLM-L6-v2" = Ok m ->
    (forall embs,
        encode m (Dict.values anchors) = Ok embs -> List.length embs < 4) ->
    initialize true load (new_brain Vec)
      = (false, mkBrain (Some m) [] 0.3%Q "all-MiniLM-L6-v2") /\
    exists r,
      classify_text cos (mkBrain (Some m) [] 0.3%Q "all-MiniLM-L6-v2")
        input threshold t0 t1 = Ok r /\
      forall c items,
        rc_get c (routed_content r) = Some items ->
        c = Hunch /\
        forall item, In item items ->
          confidence item = 0.5%Q /\
          processing_method item = "sentence_transformer".
Proof.
  intros Vec cos load m input threshold t0 t1 Hl He.
  split.
  - unfold initialize, new_brain. cbn [negb model_name]. rewrite Hl.
    cbn [anchor_embeddings confidence_threshold model_name].
    destruct (load_anchors_fails Vec m [] 0.3%Q "all-MiniLM-L6-v2" He)
      as [e Hf].
    now rewrite Hf.
  - set (b := mkBrain (Some m) [] 0.3%Q "all-MiniLM-L6-v2").
    destruct (classify_text cos b input threshold t0 t1) as [r|e] eqn:Hr;
      [|unfold classify_text in Hr; simpl in Hr; discriminate].
    exists r. split; [reflexivity|].
    intros c items Hget.
    assert (Hm : model b <> None) by discriminate.
    rewrite (similarity_routing Vec cos b input threshold t0 t1 r c Hm Hr)
      in Hget.
    destruct (routed_to c _) as [|x l] eqn:Er; [discriminate|].
    simpl in Hget. injection Hget as <-.
    assert (Hall : forall item,
               In item (x :: l) ->
               c = Hunch /\ confidence item = 0.5%Q /\
               processing_method item = "sentence_transformer").
    { intros item Hin. rewrite <- Er in Hin.
      apply routed_to_in in Hin. apply in_map_iff in Hin.
      destruct Hin as [s [Hs _]]. unfold similarity_item in Hs.
      rewrite (unanchored_sentence Vec cos b s _ eq_refl) in Hs.
      injection Hs as <- <-. auto. }
    split; [exact (proj1 (Hall x (or_introl eq_refl)))|].
    intros item Hin. apply (proj1 (in_sort_desc item (x :: l))) in Hin.
    exact (proj2 (Hall item Hin)).
Qed.

Lemma failed_anchor_load_leaves_model_witness :
  initialize true (fun _ => Ok Demo.short_model) (new_brain Exact.Vec)
    = (false, mkBrain (Some Demo.short_model) [] 0.3%Q "all-MiniLM-L6-v2") /\
  exists r,
    classify_text Exact.cosine_similarity
      (mkBrain (Some Demo.short_model) [] 0.3%Q "all-MiniLM-L6-v2")
      Scenario.text None 0%Q 1%Q = Ok r /\
    forall c items,
      rc_get c (routed_content r) = Some items ->
      c = Hunch /\
      forall item, In item items ->
        confidence item = 0.5%Q /\
        processing_method item = "sentence_transformer".
Proof.
  apply (failed_anchor_load_leaves_model Exact.Vec Exact.cosine_similarity
           (fun _ => Ok Demo.short_model) Demo.short_model
           Scenario.text None 0%Q 1%Q).
  - reflexivity.
  - intros embs [= <-]. simpl. lia.
Defined.

(** ** One sentence in similarity mode *)

Lemma similarities_of_app (Vec : Type)
    (cos : list Vec -> list Vec -> outcome (list (list Q)))
    (emb : list Vec) (pre post : Dict.t Category Vec) :
  similarities_of cos emb (pre ++ post)
  = fold_left
      (fun acc '(category, anchor_embedding) =>
         similarities <- acc ;;
         matrix <- cos emb [anchor_embedding] ;;
         row <- first matrix ;;
         similarity <- first row ;;
         Ok (Dict.set Category_eqb category similarity similarities))
      post (similarities_of cos emb pre).
Proof.
  unfold similarities_of. apply fold_left_app.
Qed.

(** X17: if the similarity against any one anchor cannot be read - the call
    to [cosine_similarity] raises, or its matrix has no first entry - the
    sentence is returned as (Hunch, 0.3), whatever the other anchors gave. *)
Theorem cosine_failure_degrades :
  forall (Vec : Type) (cos : list Vec -> list Vec -> outcome (list (list Q)))
         (self : SemanticBrain Vec) (m : SentenceTransformer Vec)
         (sentence : string) (threshold : Q) (emb : list Vec)
         (pre post : Dict.t Category Vec) (k : Category) (a : Vec)
         (e : Exception),
    model self = Some m ->
    anchor_embeddings self = pre ++ (k, a) :: post ->
    encode m [sentence] = Ok emb ->
    (matrix <- cos emb [a] ;; row <- first matrix ;; first row) = Raise e ->
    _classify_sentence cos self sentence threshold = (Hunch, 0.3%Q).
Proof.
  intros Vec cos self m sentence threshold emb pre post k a e Hm Ha He Hc.
  assert (Hs : exists e', similarities_of cos emb (pre ++ (k, a) :: post)
                          = Raise e').
  { rewrite similarities_of_app. cbn [fold_left].
    destruct (similarities_of cos emb pre) as [sims|e1]; simpl.
    - destruct (cos emb [a]) as [[|[|v row] M]|e2]; simpl in *;
        try discriminate; eexists; apply similarities_raise.
    - eexists. apply similarities_raise. }
  destruct Hs as [e' Hs].
  unfold _classify_sentence. rewrite Hm, Ha.
  destruct (pre ++ (k, a) :: post) as [|p l] eqn:El;
    [destruct pre; discriminate|].
  unfold classify_try, best_match. rewrite He. simpl. rewrite Hs.
  reflexivity.
Qed.

Lemma cosine_failure_degrades_witness :
  _classify_sentence Exact.cosine_similarity
    (mkBrain
       (Some (Exact.table_model Scenario.anchor_vecs
                [("Surveys confirm the trend", [0; 3; 0]%Q)]))
       (anchor_embeddings Scenario.brain) 0.3%Q "all-MiniLM-L6-v2")
    "Surveys confirm the trend" 0.3%Q
  = (Hunch, 0.3%Q).
Proof.
  apply (cosine_failure_degrades Exact.Vec Exact.cosine_similarity _
           (Exact.table_model Scenario.anchor_vecs
              [("Surveys confirm the trend", [0; 3; 0]%Q)])
           "Surveys confirm the trend" 0.3%Q [[0; 3; 0]%Q]
           [] [(Wisdom, [0; 1; 0; 0; 0]%Q); (Nudge, [0; 0; 1; 0; 0]%Q);
               (Spell, [0; 0; 0; 1; 0]%Q)]
           Hunch [1; 0; 0; 0; 0]%Q (Error "ValueError")).
  - reflexivity.
  - reflexivity.
  - reflexivity.
  - reflexivity.
Defined.

(** X18: the threshold decides the category only: for one sentence and one
    state of the brain, the confidence returned is the same at every
    threshold. *)
Theorem confidence_ignores_threshold :
  forall (Vec : Type) (cos : list Vec -> list Vec -> outcome (list (list Q)))
         (self : SemanticBrain Vec) (sentence : string) (t1 t2 : Q),
    snd (_classify_sentence cos self sentence t1)
    = snd (_classify_sentence cos self sentence t2).
Proof.
  intros Vec cos self sentence t1 t2. unfold _classify_sentence.
  destruct (model self) as [m|]; [|reflexivity].
  destruct (anchor_embeddings self) as [|a anchs]; [reflexivity|].
  destruct (best_match cos m (a :: anchs) sentence) as [best|e] eqn:Hb.
  - rewrite !(classify_try_best cos m (a :: anchs) sentence _ Hb).
    unfold thresholded.
    destruct (Py.Qltb (snd best) t1), (Py.Qltb (snd best) t2); reflexivity.
  - now rewrite !(classify_try_raise cos m (a :: anchs) sentence _ Hb).
Qed.

Lemma max_from_in (A B : Type) (ltb : B -> B -> bool) (key : A -> B)
    (l : list A) (best : A) :
  In (Py.max_from ltb key best l) (best :: l).
Proof.
  revert best. induction l as [|x l IH]; intros best; simpl; [now left|].
  destruct (ltb (key best) (key x)).
  - right. apply IH.
  - destruct (IH best) as [H|H]; [now left|right; now right].
Qed.

Lemma keys_set_in (V : Type) (k k' : Category) (v : V)
    (d : Dict.t Category V) :
  In k' (Dict.keys (Dict.set Category_eqb k v d)) ->
  k' = k \/ In k' (Dict.keys d).
Proof.
  unfold Dict.keys. intros Hin. apply in_map_iff in Hin.
  destruct Hin as [[k0 v0] [<- Hin]]. apply in_set in Hin.
  destruct Hin as [[= -> ->]|Hin]; [now left|right].
  simpl. change k0 with (fst (k0, v0)). now apply in_map.
Qed.

Lemma similarities_keys (Vec : Type)
    (cos : list Vec -> list Vec -> outcome (list (list Q)))
    (emb : list Vec) (anchs : Dict.t Category Vec) :
  forall acc sims : Dict.t Category Q,
    fold_left
      (fun acc '(category, anchor_embedding) =>
         similarities <- acc ;;
         matrix <- cos emb [anchor_embedding] ;;
         row <- first matrix ;;
         similarity <- first row ;;
         Ok (Dict.set Category_eqb category similarity similarities))
      anchs (Ok acc) = Ok sims ->
    forall k, In k (Dict.keys sims) ->
              In k (Dict.keys acc) \/ In k (Dict.keys anchs).
Proof.
  induction anchs as [|[c a] anchs IH]; intros acc sims; simpl.
  - intros [= <-] k Hk. now left.
  - destruct (cos emb [a]) as [[|[|v row] M]|e]; simpl;
      try (rewrite similarities_raise; discriminate).
    intros Hf k Hk. destruct (IH _ _ Hf k Hk) as [H|H].
    + apply keys_set_in in H. destruct H as [->|H]; [right; now left|].
      now left.
    + right. now right.
Qed.

(** X19: the category returned for a sentence is Hunch or the key of one of
    the anchors held by the brain. *)
Theorem category_is_hunch_or_anchor :
  forall (Vec : Type) (cos : list Vec -> list Vec -> outcome (list (list Q)))
         (self : SemanticBrain Vec) (sentence : string) (threshold : Q),
    fst (_classify_sentence cos self sentence threshold) = Hunch \/
    In (fst (_classify_sentence cos self sentence threshold))
      (Dict.keys (anchor_embeddings self)).
Proof.
  intros Vec cos self sentence threshold. unfold _classify_sentence.
  destruct (model self) as [m|]; [|now left].
  destruct (anchor_embeddings self) as [|a anchs]; [now left|].
  destruct (best_match cos m (a :: anchs) sentence) as [best|e] eqn:Hb.
  - rewrite (classify_try_best cos m (a :: anchs) sentence _ Hb).
    unfold thresholded. destruct (Py.Qltb (snd best) threshold); [now left|].
    right. unfold best_match in Hb.
    destruct (encode m [sentence]) as [emb|e]; [|discriminate].
    simpl in Hb.
    destruct (similarities_of cos emb (a :: anchs)) as [sims|e] eqn:Es;
      [|discriminate].
    simpl in Hb.
    destruct (Dict.keys sims) as [|k0 ks] eqn:Ek; [discriminate|].
    simpl in Hb. injection Hb as <-. cbn [fst].
    pose proof (max_from_in _ _ Py.Qltb (similarity_of sims) ks k0) as Hin.
    rewrite <- Ek in Hin.
    destruct (similarities_keys Vec cos emb (a :: anchs) [] sims Es _ Hin)
      as [[]|H].
    exact H.
  - rewrite (classify_try_raise cos m (a :: anchs) sentence _ Hb). now left.
Qed.

(** ** The explanation of one sentence *)

(** X20: [explain_classification] words its remark by the confidence alone.
    A sentence whose best score is at or above the threshold of the brain
    but not above 0.5 is reported under its best category, and the
    explanation still ends with "Defaulted to 'Hunch' category.". *)
Theorem explanation_claims_default_at_low_confidence :
  forall (Vec : Type) (cos : list Vec -> list Vec -> outcome (list (list Q)))
         (self : SemanticBrain Vec) (m : SentenceTransformer Vec)
         (sentence : string) (c : Category) (score : Q),
    model self = Some m ->
    anchor_embeddings self <> [] ->
    best_match cos m (anchor_embeddings self) sentence = Ok (c, score) ->
    (confidence_threshold self <= score)%Q ->
    (score <= 0.5)%Q ->
    explain_classification cos self sentence
    = Ok (mkExplanation sentence (Some c) score
            (("Classified as '" ++ Category_name c ++ "' with "
              ++ PyFormat.percent1 score ++ " confidence. ")
             ++ "Low confidence classification. Defaulted to 'Hunch' category.")
            "sentence_transformer").
Proof.
  intros Vec cos self m sentence c score Hm Ha Hb Hge Hle.
  unfold explain_classification. rewrite Hm.
  destruct (anchor_embeddings self) as [|a anchs] eqn:Ea; [congruence|].
  rewrite (classify_sentence_ready cos self sentence _ Hm Ea).
  rewrite (classify_try_best cos m (a :: anchs) sentence _ Hb).
  unfold thresholded. cbn [snd].
  apply Qltb_false in Hge. rewrite Hge.
  unfold confidence_remark.
  assert (H7 : Py.Qltb 0.7%Q score = false).
  { apply Qltb_false. apply Qle_trans with 0.5%Q; [exact Hle|discriminate]. }
  assert (H5 : Py.Qltb 0.5%Q score = false) by now apply Qltb_false.
  now rewrite H7, H5.
Qed.

Lemma explanation_claims_default_at_low_confidence_witness :
  explain_classification Exact.cosine_similarity Demo.brain
    "Margins may improve next year"
  = Ok (mkExplanation "Margins may improve next year" (Some Wisdom)
          (2 # 5)%Q
          "Classified as 'Wisdom' with 40.0% confidence. Low confidence classification. Defaulted to 'Hunch' category."
          "sentence_transformer").
Proof.
  apply (explanation_claims_default_at_low_confidence Exact.Vec
           Exact.cosine_similarity Demo.brain
           (Exact.table_model Scenario.anchor_vecs Demo.table)
           "Margins may improve next year" Wisdom (2 # 5)%Q).
  - reflexivity.
  - vm_compute. discriminate.
  - vm_compute. reflexivity.
  - vm_compute. discriminate.
  - vm_compute. discriminate.
Defined.

(** * The set-up script *)







